(** * Help-desk classifier bot: the request-relay pipeline of [bot.py]

    A shallow embedding of [src/bot.py]: the configuration record, the
    [APIResponse] value, [APIClient.classify_message], the two
    [MessageFormatter] renderers, [process_api_response] and the retry loop
    of [handle_message], followed by the properties of the relay pipeline.

    Python values are embedded as follows.
    - [str] is a list of Unicode code points, so that [len] is [length] and
      the slice [text[:n]] is a prefix; literals are written as UTF-8 Rocq
      strings and decoded by [u].
    - [int] is [Z].
    - a value decoded from JSON is a term of [json]; a [dict] keeps its
      entries in insertion order, as an association list.
    - a call that may raise returns a [result]: [Raise e] or [Return v].
    - the payload dictionary is mutated in place by the source; the
      embedding returns the object after the call next to the result.
    Calls of [logger] have no effect on what is computed and are left out. *)

From Stdlib Require Import List ZArith NArith Bool Lia String Ascii.
From Stdlib Require Import Floats.SpecFloat.
From Stdlib Require DecimalString.
Import ListNotations.

Local Open Scope Z_scope.
Set Warnings "-register-all".

(** ** Python strings *)

Module PyStr.

Definition codepoint := N.
Definition pystr := list codepoint.

Fixpoint eqb (a b : pystr) : bool :=
  match a, b with
  | [], [] => true
  | x :: a', y :: b' => N.eqb x y && eqb a' b'
  | _, _ => false
  end.

(** UTF-8 decoding of a literal: [need] continuation bytes are still
    expected for the code point accumulated in [acc]. *)
Fixpoint decode (s : string) (need : nat) (acc : N) : pystr :=
  match s with
  | EmptyString => []
  | String c rest =>
      let b := N_of_ascii c in
      if (b <? 128)%N then b :: decode rest 0%nat 0%N
      else if (b <? 192)%N then
        let acc' := (acc * 64 + (b - 128))%N in
        match need with
        | S O => acc' :: decode rest 0%nat 0%N
        | S k => decode rest k acc'
        | O => decode rest 0%nat 0%N
        end
      else if (b <? 224)%N then decode rest 1%nat (b - 192)%N
      else if (b <? 240)%N then decode rest 2%nat (b - 224)%N
      else decode rest 3%nat (b - 240)%N
  end.

Definition u (s : string) : pystr := decode s 0%nat 0%N.

(** [len(s)] *)
Definition len (s : pystr) : Z := Z.of_nat (List.length s).

(** [s[:n]] for an [int] [n]: a negative bound counts from the end. *)
Definition slice_to (s : pystr) (n : Z) : pystr :=
  if 0 <=? n then firstn (Z.to_nat n) s
  else firstn (Z.to_nat (len s + n)) s.

(** [str(n)] for an [int]. *)
Definition of_int (n : Z) : pystr :=
  u (DecimalString.NilZero.string_of_int (Z.to_int n)).

(** [sep.join(parts)] *)
Fixpoint join (sep : pystr) (parts : list pystr) : pystr :=
  match parts with
  | [] => []
  | [p] => p
  | p :: rest => p ++ sep ++ join sep rest
  end.

End PyStr.

Import PyStr.

(** ** Python values and exceptions *)

(** A value as [json.loads] builds it.  A [dict] lists its entries in
    insertion order; its keys are strings. *)
Inductive json : Type :=
| JNull
| JBool (b : bool)
| JInt (z : Z)
| JFloat (f : spec_float)
| JStr (s : pystr)
| JList (items : list json)
| JDict (entries : list (pystr * json)).

Definition dict := list (pystr * json).

(** An exception raised by an operation on a value. *)
Inductive exn : Type :=
| AttributeError
| KeyError (key : pystr)
| TypeError.

(** An exception raised by a collaborator (the HTTP session, the chat
    platform, a stub), as far as the code observes it: whether it is an
    [asyncio.TimeoutError], and its [str(e)]. *)
Record raised : Type := Raised { is_timeout : bool; message : pystr }.

Inductive result (E A : Type) : Type :=
| Raise (e : E)
| Return (a : A).
Arguments Raise {E A} e.
Arguments Return {E A} a.

Definition bind {E A B} (m : result E A) (k : A -> result E B) : result E B :=
  match m with
  | Raise e => Raise e
  | Return a => k a
  end.

Notation "x <- m ;; k" := (bind m (fun x => k))
  (at level 61, m at next level, right associativity).

(** [try: body  except Exception as e: handler(e)] *)
Definition try_except {E E' A} (body : result E A) (handler : E -> result E' A)
  : result E' A :=
  match body with
  | Raise e => handler e
  | Return a => Return a
  end.

Fixpoint mapM {E A B} (f : A -> result E B) (l : list A) : result E (list B) :=
  match l with
  | [] => Return []
  | x :: rest => y <- f x ;; ys <- mapM f rest ;; Return (y :: ys)
  end.

Module Py.

(** Truth value of an object, as tested by [if v:] and [v or w]. *)
Definition truthy (v : json) : bool :=
  match v with
  | JNull => false
  | JBool b => b
  | JInt z => negb (z =? 0)
  | JFloat (S754_zero _) => false
  | JFloat _ => true
  | JStr [] => false
  | JStr _ => true
  | JList [] => false
  | JList _ => true
  | JDict [] => false
  | JDict _ => true
  end.

(** [a or b] *)
Definition or_ (a b : json) : json := if truthy a then a else b.

Definition is_none (v : json) : bool :=
  match v with JNull => true | _ => false end.

(** [isinstance(v, dict)] *)
Definition isinstance_dict (v : json) : bool :=
  match v with JDict _ => true | _ => false end.

Fixpoint lookup (k : pystr) (d : dict) : option json :=
  match d with
  | [] => None
  | (k', v) :: rest => if PyStr.eqb k k' then Some v else lookup k rest
  end.

(** [d[k] = v] on a dict: the entry keeps its place when the key exists,
    and is added at the end otherwise. *)
Fixpoint store (k : pystr) (v : json) (d : dict) : dict :=
  match d with
  | [] => [(k, v)]
  | (k', v') :: rest =>
      if PyStr.eqb k k' then (k', v) :: rest else (k', v') :: store k v rest
  end.

(** [v.get(k, default)]; only a dict has the method. *)
Definition get (v : json) (k : pystr) (default : json) : result exn json :=
  match v with
  | JDict d =>
      match lookup k d with
      | Some x => Return x
      | None => Return default
      end
  | _ => Raise AttributeError
  end.

(** [v[k]] for a string key [k]. *)
Definition getitem (v : json) (k : pystr) : result exn json :=
  match v with
  | JDict d =>
      match lookup k d with
      | Some x => Return x
      | None => Raise (KeyError k)
      end
  | _ => Raise TypeError
  end.

(** [v[k] = x] for a string key [k]. *)
Definition setitem (v : json) (k : pystr) (x : json) : result exn json :=
  match v with
  | JDict d => Return (JDict (store k x d))
  | _ => Raise TypeError
  end.

(** [v.items()] *)
Definition items (v : json) : result exn (list (pystr * json)) :=
  match v with
  | JDict d => Return d
  | _ => Raise AttributeError
  end.

(** The elements a [for] loop over [v] visits. *)
Definition iter (v : json) : result exn (list json) :=
  match v with
  | JList l => Return l
  | JDict d => Return (map (fun e => JStr (fst e)) d)
  | JStr s => Return (map (fun c => JStr [c]) s)
  | _ => Raise TypeError
  end.

(** [table.get(key, default)] on a dict literal from strings to strings:
    a list or a dict is not hashable. *)
Fixpoint table_lookup (k : pystr) (table : list (pystr * pystr)) : option pystr :=
  match table with
  | [] => None
  | (k', label) :: rest => if PyStr.eqb k k' then Some label else table_lookup k rest
  end.

Definition table_get (table : list (pystr * pystr)) (key default : json)
  : result exn json :=
  match key with
  | JList _ | JDict _ => Raise TypeError
  | JStr s =>
      match table_lookup s table with
      | Some label => Return (JStr label)
      | None => Return default
      end
  | _ => Return default
  end.

(** [sep.join(v)]: every element must be a string. *)
Definition as_str (v : json) : result exn pystr :=
  match v with
  | JStr s => Return s
  | _ => Raise TypeError
  end.

Definition join (sep : pystr) (v : json) : result exn pystr :=
  elems <- iter v ;;
  parts <- mapM as_str elems ;;
  Return (PyStr.join sep parts).

(** [range(n)] *)
Definition range (n : Z) : list Z := map Z.of_nat (seq 0 (Z.to_nat n)).

End Py.

(** ** Configuration and the response object *)

Record Config : Type := {
  BOT_TOKEN : pystr;
  API_URL : pystr;
  MAX_RETRIES : Z;
  TIMEOUT : Z;
  MAX_TEXT_LENGTH : Z;
  RETRY_DELAY : Z
}.

(** The values [Config.__init__] takes when the environment only sets the
    token and the endpoint. *)
Definition default_config (token url : pystr) : Config :=
  {| BOT_TOKEN := token; API_URL := url; MAX_RETRIES := 3; TIMEOUT := 120;
     MAX_TEXT_LENGTH := 4096; RETRY_DELAY := 5 |}.

Record APIResponse : Type := {
  success : bool;
  data : json;
  error : option pystr
}.

(** [APIResponse.__init__]: [self.data = data or {}].  An absent [data]
    argument is [None]. *)
Definition APIResponse_init (success : bool) (data : json) (error : option pystr)
  : APIResponse :=
  {| success := success; data := Py.or_ data (JDict []); error := error |}.

Definition nl : pystr := [10%N].

(** ** APIClient *)

Module APIClient.

Record request : Type := {
  url : pystr;
  body : json;
  headers : list (pystr * pystr);
  timeout : Z
}.

(** What the code observes of the response object: its status, and the
    outcomes of [await response.text()] and [await response.json()]. *)
Record response : Type := {
  status : Z;
  text : result raised pystr;
  json_body : result raised json
}.

(** The session: [session.post] either raises or yields a response. *)
Definition session := request -> result raised response.

(** Lines 51-53: the text that goes into the request. *)
Definition outgoing_text (config : Config) (text : pystr) : pystr :=
  if len text >? MAX_TEXT_LENGTH config
  then slice_to text (MAX_TEXT_LENGTH config)
  else text.

(** Lines 55-60: the request body. *)
Definition request_data (config : Config) (text : pystr) : json :=
  JDict [ (u "text", JStr (outgoing_text config text));
          (u "name", JNull);
          (u "topic", JNull);
          (u "generate_answer", JBool true) ].

Definition request_of (config : Config) (text : pystr) : request :=
  {| url := API_URL config;
     body := request_data config text;
     headers := [(u "Content-Type", u "application/json")];
     timeout := TIMEOUT config |}.

Definition status_error (status : Z) (response_text : pystr) : pystr :=
  u "API вернул статус " ++ of_int status ++ u ": " ++ response_text.

Definition timeout_error : pystr := u "Превышено время ожидания ответа".

(** The body of the [try] block, lines 63-79. *)
Definition exchange (post : session) (req : request) : result raised APIResponse :=
  response <- post req ;;
  response_text <- text response ;;
  if status response =? 200 then
    result <- json_body response ;;
    Return (APIResponse_init true result None)
  else
    Return (APIResponse_init false JNull
              (Some (status_error (status response) response_text))).

(** The two [except] clauses, lines 81-84, in their order. *)
Definition on_exception (e : raised) : result raised APIResponse :=
  if is_timeout e
  then Return (APIResponse_init false JNull (Some timeout_error))
  else Return (APIResponse_init false JNull (Some (message e))).

Definition classify_message (config : Config) (post : session) (text : pystr)
  : result raised APIResponse :=
  try_except (exchange post (request_of config text)) on_exception.

End APIClient.

(** ** MessageFormatter *)

Fixpoint for_each {A} (f : pystr -> A -> result exn pystr) (l : list A) (reply : pystr)
  : result exn pystr :=
  match l with
  | [] => Return reply
  | x :: rest => reply' <- f reply x ;; for_each f rest reply'
  end.

Module MessageFormatter.

Section Formatting.

(** [str()] of a float, a list or a dict, which a reply shows when the
    payload holds one where a string is expected. *)
Variable py_repr : json -> pystr.

(** The text an f-string substitutes for [{v}]. *)
Definition fstr (v : json) : pystr :=
  match v with
  | JStr s => s
  | JNull => u "None"
  | JBool true => u "True"
  | JBool false => u "False"
  | JInt z => of_int z
  | _ => py_repr v
  end.

Definition success_names : list (pystr * pystr) :=
  [ (u "equipment_type", u "Тип оборудования");
    (u "failure_point", u "Тип неисправности");
    (u "serial_number", u "Серийный номер") ].

Definition missing_names : list (pystr * pystr) :=
  [ (u "equipment_type", u "тип оборудования");
    (u "failure_point", u "тип неисправности");
    (u "serial_number", u "серийный номер") ].

(** [attr_names.get(attr['name'], attr['name'])] *)
Definition attr_label (attr_names : list (pystr * pystr)) (attr : json)
  : result exn json :=
  key <- Py.getitem attr (u "name") ;;
  default <- Py.getitem attr (u "name") ;;
  Py.table_get attr_names key default.

(** One turn of the loop of lines 98-100. *)
Definition success_line (reply : pystr) (attr : json) : result exn pystr :=
  name <- attr_label success_names attr ;;
  value <- Py.getitem attr (u "value") ;;
  Return (reply ++ u "🔹 " ++ fstr name ++ u ": " ++ fstr value ++ nl).

Definition format_successful_classification (attributes keywords : json)
  : result exn pystr :=
  let reply := u "✅ Заявка успешно классифицирована:" ++ nl ++ nl in
  attrs <- Py.iter attributes ;;
  reply <- for_each success_line attrs reply ;;
  if Py.truthy keywords then
    joined <- Py.join (u ", ") keywords ;;
    Return (reply ++ nl ++ u "🔑 Ключевые слова: " ++ joined)
  else Return reply.

(** One turn of the loop of lines 120-122. *)
Definition recognized_line (reply : pystr) (attr : json) : result exn pystr :=
  name <- attr_label missing_names attr ;;
  value <- Py.getitem attr (u "value") ;;
  Return (reply ++ u "- " ++ fstr name ++ u ": " ++ fstr value ++ nl).

(** One turn of the loop of lines 126-128. *)
Definition missing_line (reply : pystr) (attr : json) : result exn pystr :=
  readable_name <- Py.table_get missing_names attr attr ;;
  Return (reply ++ u "- " ++ fstr readable_name ++ nl).

Definition format_missing_info (missing_attrs recognized_attrs : json)
  : result exn pystr :=
  let reply :=
    u "⚠️ Для обработки заявки требуется дополнительная информация" ++ nl ++ nl in
  reply <-
    (if Py.truthy recognized_attrs then
       let reply := reply ++ u "✓ Уже распознано:" ++ nl in
       attrs <- Py.iter recognized_attrs ;;
       reply <- for_each recognized_line attrs reply ;;
       Return (reply ++ nl)
     else Return reply) ;;
  let reply := reply ++ u "❗️ Пожалуйста, уточните:" ++ nl in
  attrs <- Py.iter missing_attrs ;;
  for_each missing_line attrs reply.

End Formatting.

End MessageFormatter.

(** ** process_api_response and handle_message *)

Section Relay.

Variable py_repr : json -> pystr.

Definition api_error_reply : pystr :=
  u "Произошла ошибка при обработке заявки. Пожалуйста, попробуйте позже.".

(** The record the comprehension of lines 146-150 builds for one entry. *)
Definition attribute (name : pystr) (value : json) : json :=
  JDict [(u "name", JStr name); (u "value", value)].

Definition not_none_entry (e : pystr * json) : bool := negb (Py.is_none (snd e)).

(** Lines 145-150, on the dictionary object [data]: the object after the
    block. *)
Definition normalize_attributes (data : json) : result exn json :=
  attributes <- Py.get data (u "attributes") JNull ;;
  if Py.isinstance_dict attributes then
    mapping <- Py.getitem data (u "attributes") ;;
    entries <- Py.items mapping ;;
    Py.setitem data (u "attributes")
      (JList (map (fun e => attribute (fst e) (snd e))
                  (filter not_none_entry entries)))
  else Return data.

(** Lines 152-161. *)
Definition render (data : json) : result exn json :=
  valid <- Py.get data (u "valid") JNull ;;
  if Py.truthy valid then
    attributes <- Py.get data (u "attributes") (JList []) ;;
    keywords <- Py.get data (u "keywords") (JList []) ;;
    reply <- MessageFormatter.format_successful_classification py_repr
               attributes keywords ;;
    Return (JStr reply)
  else
    missing <- Py.get data (u "missingAttributes") (JList []) ;;
    attributes <- Py.get data (u "attributes") (JList []) ;;
    reply <- MessageFormatter.format_missing_info py_repr missing attributes ;;
    Return (JStr reply).

Definition with_data (response : APIResponse) (data' : json) : APIResponse :=
  {| success := success response; data := data'; error := error response |}.

(** [process_api_response]: the response object after the call (its [data]
    dictionary is the one the block of lines 145-150 assigns into), and
    what the call returns or raises. *)
Definition process_api_response (response : APIResponse)
  : APIResponse * result exn json :=
  if negb (success response) then (response, Return (JStr api_error_reply))
  else
    let data := data response in
    match Py.get data (u "answer") JNull with
    | Raise e => (response, Raise e)
    | Return answer =>
        if Py.truthy answer then (response, Py.getitem data (u "answer"))
        else
          match normalize_attributes data with
          | Raise e => (response, Raise e)
          | Return data' => (with_data response data', render data')
          end
    end.

(** *** The retry loop *)

(** What a run of [handle_message] does to the outside, in order. *)
Inductive event : Type :=
| Called (text : pystr)      (* api_client.classify_message(text) was awaited *)
| Replied (reply : json)     (* bot.reply_to(message, reply) delivered reply *)
| Slept (delay : Z).         (* asyncio.sleep(delay) *)

(** The collaborators of one run.  [attempt] is the loop variable, so the
    outcomes may differ from one attempt to the next. *)
Record collaborators : Type := {
  (* api_client.classify_message(message.text), line 190 *)
  classify : Z -> pystr -> result raised APIResponse;
  (* bot.reply_to(message, reply), line 192 *)
  reply_to : Z -> json -> result raised unit;
  (* bot.reply_to(message, "Извините, ..."), line 197 *)
  reply_apology : Z -> result raised unit
}.

(** An exception that leaves the [try] block. *)
Inductive fault : Type :=
| ClientFault (e : raised)
| ProcessingFault (e : exn)
| ReplyFault (e : raised).

Definition exhausted_reply : pystr :=
  u "Извините, произошла ошибка при обработке вашего сообщения. "
  ++ u "Пожалуйста, попробуйте позже.".

(** Lines 190-192, the [try] block of one attempt. *)
Definition try_block (w : collaborators) (text : pystr) (attempt : Z)
    (log : list event) : list event * result fault unit :=
  let log := log ++ [Called text] in
  match classify w attempt text with
  | Raise e => (log, Raise (ClientFault e))
  | Return response =>
      match snd (process_api_response response) with
      | Raise e => (log, Raise (ProcessingFault e))
      | Return reply =>
          match reply_to w attempt reply with
          | Raise e => (log, Raise (ReplyFault e))
          | Return _ => (log ++ [Replied reply], Return tt)
          end
      end
  end.

(** The [for] loop of lines 188-203 over the attempts still to make. *)
Fixpoint attempts (w : collaborators) (config : Config) (text : pystr)
    (todo : list Z) (log : list event) : list event * result raised unit :=
  match todo with
  | [] => (log, Return tt)
  | attempt :: rest =>
      match try_block w text attempt log with
      | (log, Return _) => (log, Return tt)                     (* break *)
      | (log, Raise _) =>
          if attempt =? MAX_RETRIES config - 1 then
            match reply_apology w attempt with
            | Raise e => (log, Raise e)
            | Return _ =>
                attempts w config text rest (log ++ [Replied (JStr exhausted_reply)])
            end
          else
            attempts w config text rest (log ++ [Slept (RETRY_DELAY config)])
      end
  end.

Definition handle_message (w : collaborators) (config : Config) (text : pystr)
  : list event * result raised unit :=
  attempts w config text (Py.range (MAX_RETRIES config)) [].

End Relay.

(** *** Observations on a log *)

Definition is_reply (e : event) : bool :=
  match e with Replied _ => true | _ => false end.
Definition is_call (e : event) : bool :=
  match e with Called _ => true | _ => false end.
Definition is_sleep (e : event) : bool :=
  match e with Slept _ => true | _ => false end.

Definition replies (log : list event) : list event := filter is_reply log.
Definition calls (log : list event) : list event := filter is_call log.
Definition sleeps (log : list event) : list event := filter is_sleep log.

(** ** Vocabulary of the statements *)

(** The result object of a failed call: [APIResponse(success=False, error=reason)]. *)
Definition failure (reason : pystr) : APIResponse :=
  {| success := false; data := JDict []; error := Some reason |}.

(** The HTTP call on [req] was aborted by the exception [e]: raised by
    [session.post], by [response.text()], or, on status 200, by
    [response.json()]. *)
Definition aborted_by (post : APIClient.session) (req : APIClient.request) (e : raised) : Prop :=
  post req = Raise e
  \/ exists resp,
       post req = Return resp
       /\ (APIClient.text resp = Raise e
           \/ exists body,
                APIClient.text resp = Return body /\ APIClient.status resp = 200
                /\ APIClient.json_body resp = Raise e).

(** [needle] occurs in [s]. *)
Definition includes (s needle : pystr) : Prop :=
  exists before after, s = before ++ needle ++ after.

(** The payload has no usable [answer]: the key is absent, or its value is
    one that [if data.get('answer'):] rejects. *)
Definition no_answer (d : dict) : Prop :=
  forall a, Py.lookup (u "answer") d = Some a -> Py.truthy a = false.

(** The attribute list of [data] is a list of [{name, value}] records none
    of which holds [None] as its value. *)
Definition values_never_null (data : json) : Prop :=
  exists attrs,
    Py.get data (u "attributes") JNull = Return (JList attrs)
    /\ forall a, In a attrs ->
         exists name value, a = attribute name value /\ value <> JNull.

(** *** The payload shape of the API *)

Definition is_str (v : json) : bool :=
  match v with JStr _ => true | _ => false end.

Definition is_bool (v : json) : bool :=
  match v with JBool _ => true | _ => false end.

Definition is_str_list (v : json) : bool :=
  match v with JList l => forallb is_str l | _ => false end.

(** [{name: string, value: string}] *)
Definition is_attribute (v : json) : bool :=
  match v with
  | JDict e =>
      match Py.lookup (u "name") e, Py.lookup (u "value") e with
      | Some (JStr _), Some (JStr _) => true
      | _, _ => false
      end
  | _ => false
  end.

(** A mapping from names to strings or [null], or a list of attributes. *)
Definition is_attributes (v : json) : bool :=
  match v with
  | JDict m => forallb (fun e => is_str (snd e) || Py.is_none (snd e)) m
  | JList l => forallb is_attribute l
  | _ => false
  end.

(** The key [k] is absent from [d], or holds a value of the given shape. *)
Definition optional (k : pystr) (shape : json -> bool) (d : dict) : bool :=
  match Py.lookup k d with
  | None => true
  | Some v => shape v
  end.

(** Every recognized key of the payload that is present has the type the
    API documents for it; any of them may be absent, and other keys are
    free. *)
Definition payload_shape (d : dict) : bool :=
  optional (u "answer") is_str d
  && optional (u "valid") is_bool d
  && optional (u "attributes") is_attributes d
  && optional (u "missingAttributes") is_str_list d
  && optional (u "keywords") is_str_list d.

(** The value each optional key stands for when it is absent. *)
Definition optional_defaults : list (pystr * json) :=
  [ (u "valid", JBool false);
    (u "attributes", JList []);
    (u "missingAttributes", JList []);
    (u "keywords", JList []) ].

(** [d.get(k, default)] on the outcome of the lookup. *)
Definition or_default (field : option json) (default : json) : json :=
  match field with Some v => v | None => default end.

(** The [attributes] field after the normalization block. *)
Definition normalized_field (attributes : option json) : option json :=
  match attributes with
  | Some (JDict m) =>
      Some (JList (map (fun e => attribute (fst e) (snd e))
                       (filter not_none_entry m)))
  | other => other
  end.

(** What [process_api_response] returns for a successful response, as a
    function of the five recognized fields of its payload. *)
Definition reply_of_fields (py_repr : json -> pystr)
    (answer attributes valid keywords missing : option json) : result exn json :=
  if Py.truthy (or_default answer JNull) then Return (or_default answer JNull)
  else if Py.truthy (or_default valid JNull) then
    reply <- MessageFormatter.format_successful_classification py_repr
               (or_default (normalized_field attributes) (JList []))
               (or_default keywords (JList [])) ;;
    Return (JStr reply)
  else
    reply <- MessageFormatter.format_missing_info py_repr
               (or_default missing (JList []))
               (or_default (normalized_field attributes) (JList [])) ;;
    Return (JStr reply).

(** A record the formatters can render: a dictionary with a string under
    [name] and some value under [value]. *)
Definition renderable (a : json) : Prop :=
  exists e n v,
    a = JDict e /\ Py.lookup (u "name") e = Some (JStr n)
    /\ Py.lookup (u "value") e = Some v.

(** *** Vocabulary of the retry loop *)

(** The reply attempt number [attempt] has ready for delivery: the client
    call returned and [process_api_response] returned.  [None] when either
    of them raised. *)
Definition formatted (py_repr : json -> pystr) (w : collaborators) (text : pystr)
    (attempt : Z) : option json :=
  match classify w attempt text with
  | Raise _ => None
  | Return response =>
      match snd (process_api_response py_repr response) with
      | Raise _ => None
      | Return reply => Some reply
      end
  end.

(** The chat platform delivers whatever it is asked to. *)
Definition reliable_delivery (w : collaborators) : Prop :=
  (forall attempt reply, reply_to w attempt reply = Return tt)
  /\ (forall attempt, reply_apology w attempt = Return tt).

Definition exactly_one_reply (log : list event) : Prop :=
  List.length (replies log) = 1%nat.

(** *** Concrete collaborators and configurations *)

Definition no_repr : json -> pystr := fun _ => [].

Definition config_with_retries (n : Z) : Config :=
  {| BOT_TOKEN := u "token"; API_URL := u "http://localhost:8080/api/analyze";
     MAX_RETRIES := n; TIMEOUT := 120; MAX_TEXT_LENGTH := 4096; RETRY_DELAY := 5 |}.

(** A client that answers every call with a ready answer, and a platform
    that delivers. *)
Definition answering_world : collaborators :=
  {| classify := fun _ _ =>
       Return (APIResponse_init true (JDict [(u "answer", JStr (u "ok"))]) None);
     reply_to := fun _ _ => Return tt;
     reply_apology := fun _ => Return tt |}.

(** The same client with a platform that refuses every delivery. *)
Definition undeliverable_world : collaborators :=
  {| classify := classify answering_world;
     reply_to := fun _ _ => Raise (Raised false (u "Bad Gateway"));
     reply_apology := fun _ => Raise (Raised false (u "Bad Gateway")) |}.

(** A client that raises on every call, and a platform that delivers. *)
Definition failing_world : collaborators :=
  {| classify := fun _ _ => Raise (Raised false (u "Connection reset"));
     reply_to := fun _ _ => Return tt;
     reply_apology := fun _ => Return tt |}.

(** A client that returns a clean failure, and a platform that delivers. *)
Definition status_500_world : collaborators :=
  {| classify := fun _ _ => Return (APIResponse_init false JNull (Some (u "status 500")));
     reply_to := fun _ _ => Return tt;
     reply_apology := fun _ => Return tt |}.

Definition config_with_max_text (n : Z) : Config :=
  {| BOT_TOKEN := u "token"; API_URL := u "http://localhost:8080/api/analyze";
     MAX_RETRIES := 3; TIMEOUT := 120; MAX_TEXT_LENGTH := n; RETRY_DELAY := 5 |}.

(** A session whose server answers 500 with a plain-text body. *)
Definition status_500_session : APIClient.session :=
  fun _ =>
    Return {| APIClient.status := 500;
              APIClient.text := Return (u "Internal Server Error");
              APIClient.json_body := Raise (Raised false (u "not JSON")) |}.

(** A session whose request times out. *)
Definition timeout_session : APIClient.session :=
  fun _ => Raise (Raised true []).

(** A session whose connection is reset. *)
Definition reset_session : APIClient.session :=
  fun _ => Raise (Raised false (u "Connection reset by peer")).

(** The payload [{"serial_number": "ABC123", "equipment_type": null}] under
    [attributes], next to a [valid] flag. *)
Definition mapping_payload : dict :=
  [ (u "valid", JBool true);
    (u "attributes",
     JDict [(u "serial_number", JStr (u "ABC123")); (u "equipment_type", JNull)]) ].

(** A payload with a ready answer next to other fields. *)
Definition answer_payload : dict :=
  [ (u "answer", JStr (u "Перезагрузите принтер"));
    (u "valid", JBool true);
    (u "attributes", JDict [(u "equipment_type", JStr (u "принтер"))]) ].

Definition successful (d : dict) : APIResponse :=
  {| success := true; data := JDict d; error := None |}.

(** ** Vocabulary of the further properties *)

(** *** Attempts of the retry loop *)

(** Attempt [attempt] leaves the [try] block by an exception: the client
    call or the processing raised, or the delivery of the reply did. *)
Definition attempt_faults (py_repr : json -> pystr) (w : collaborators)
    (text : pystr) (attempt : Z) : Prop :=
  formatted py_repr w text attempt = None
  \/ exists reply e,
       formatted py_repr w text attempt = Some reply
       /\ reply_to w attempt reply = Raise e.

(** Attempt [attempt] delivers [reply]. *)
Definition attempt_delivers (py_repr : json -> pystr) (w : collaborators)
    (text : pystr) (attempt : Z) (reply : json) : Prop :=
  formatted py_repr w text attempt = Some reply
  /\ reply_to w attempt reply = Return tt.

(** The log of [k] attempts that raised, each followed by the pause. *)
Fixpoint failed_attempts (k : nat) (text : pystr) (delay : Z) : list event :=
  match k with
  | O => []
  | S k' => Called text :: Slept delay :: failed_attempts k' text delay
  end.

(** The client as [handle_message] builds it, line 186: the outcome of the
    call of attempt [attempt] is that of [classify_message] over what the
    session does with that request. *)
Definition session_client (config : Config) (post : Z -> APIClient.session)
  : Z -> pystr -> result raised APIResponse :=
  fun attempt text => APIClient.classify_message config (post attempt) text.

Definition with_session (config : Config) (post : Z -> APIClient.session)
    (w : collaborators) : collaborators :=
  {| classify := session_client config post;
     reply_to := reply_to w;
     reply_apology := reply_apology w |}.

(** A client that raises on the first two calls and answers the third, and
    a platform that delivers. *)
Definition flaky_world : collaborators :=
  {| classify := fun attempt _ =>
       if attempt <? 2 then Raise (Raised false (u "Connection reset"))
       else Return (APIResponse_init true (JDict [(u "answer", JStr (u "ok"))]) None);
     reply_to := fun _ _ => Return tt;
     reply_apology := fun _ => Return tt |}.

(** *** The texts of the replies *)

(** The keys of the payload the code reads. *)
Definition recognized_keys : list pystr :=
  [u "answer"; u "valid"; u "attributes"; u "missingAttributes"; u "keywords"].

(** The label shown for the attribute name [n]: its entry in the table,
    or [n] itself. *)
Definition label (names : list (pystr * pystr)) (n : pystr) : pystr :=
  match Py.table_lookup n names with
  | Some l => l
  | None => n
  end.

(** One line per attribute of a classified request. *)
Definition success_body (py_repr : json -> pystr) (pairs : list (pystr * json)) : pystr :=
  List.concat (map (fun p => u "🔹 " ++ label MessageFormatter.success_names (fst p)
                          ++ u ": " ++ MessageFormatter.fstr py_repr (snd p) ++ nl)
              pairs).

(** The keywords line, absent when there is no keyword. *)
Definition keywords_line (ks : list pystr) : pystr :=
  match ks with
  | [] => []
  | _ => nl ++ u "🔑 Ключевые слова: " ++ PyStr.join (u ", ") ks
  end.

(** The block of the attributes recognized so far, absent when there is
    none. *)
Definition recognized_block (py_repr : json -> pystr) (pairs : list (pystr * json))
  : pystr :=
  match pairs with
  | [] => []
  | _ =>
      u "✓ Уже распознано:" ++ nl
      ++ List.concat (map (fun p => u "- " ++ label MessageFormatter.missing_names (fst p)
                                 ++ u ": " ++ MessageFormatter.fstr py_repr (snd p) ++ nl)
                     pairs)
      ++ nl
  end.

(** The block that asks for the missing attributes. *)
Definition clarify_block (ms : list pystr) : pystr :=
  u "❗️ Пожалуйста, уточните:" ++ nl
  ++ List.concat (map (fun m => u "- " ++ label MessageFormatter.missing_names m ++ nl) ms).

Definition success_header : pystr :=
  u "✅ Заявка успешно классифицирована:" ++ nl ++ nl.

Definition missing_header : pystr :=
  u "⚠️ Для обработки заявки требуется дополнительная информация" ++ nl ++ nl.

Definition attributes_of (pairs : list (pystr * json)) : json :=
  JList (map (fun p => attribute (fst p) (snd p)) pairs).

Definition strings (l : list pystr) : json := JList (map JStr l).

(** A session whose server answers 200 with the JSON array [[1]]. *)
Definition array_session : APIClient.session :=
  fun _ =>
    Return {| APIClient.status := 200;
              APIClient.text := Return (u "[1]");
              APIClient.json_body := Return (JList [JInt 1]) |}.

(** The payload of [mapping_payload] with a key the code does not read in
    front. *)
Definition annotated_payload : dict :=
  (u "confidence", JInt 97) :: mapping_payload.

(** The payload of [mapping_payload] with an empty answer in front. *)
Definition empty_answer_payload : dict :=
  (u "answer", JStr []) :: mapping_payload.

(** A payload that is classified but carries [null] for its attributes. *)
Definition null_attributes_payload : dict :=
  [ (u "valid", JBool true); (u "attributes", JNull) ].

Definition the_text : pystr := u "printer is broken".

(** The HTTP call on [req] came back with status 200 and the decoded JSON
    body [payload]. *)
Definition decoded (post : APIClient.session) (req : APIClient.request)
    (payload : json) : Prop :=
  exists resp body,
    post req = Return resp
    /\ APIClient.text resp = Return body
    /\ APIClient.status resp = 200
    /\ APIClient.json_body resp = Return payload.

(** A session whose server answers 200 with the JSON body it was sent. *)
Definition echo_session : APIClient.session :=
  fun req =>
    Return {| APIClient.status := 200;
              APIClient.text := Return [];
              APIClient.json_body := Return (APIClient.body req) |}.

(** * Properties *)

(** ** Strings and evaluation checks *)

Module PyStrFacts.

Lemma eqb_refl (a : pystr) : PyStr.eqb a a = true.
Proof.
  induction a as [|x a IH]; simpl; [reflexivity|].
  now rewrite N.eqb_refl, IH.
Qed.

Lemma eqb_eq (a b : pystr) : PyStr.eqb a b = true <-> a = b.
Proof.
  split.
  - revert b; induction a as [|x a IH]; intros [|y b]; simpl; try easy.
    intros H. apply andb_true_iff in H as [Hx Hr].
    apply N.eqb_eq in Hx. apply IH in Hr. now subst.
  - intros ->. apply eqb_refl.
Qed.

Lemma eqb_neq (a b : pystr) : PyStr.eqb a b = false <-> a <> b.
Proof.
  split.
  - intros H E. apply eqb_eq in E. congruence.
  - intros H. destruct (PyStr.eqb a b) eqn:E; [|reflexivity].
    apply eqb_eq in E. contradiction.
Qed.

End PyStrFacts.

Example decode_ascii : u "abc" = [97; 98; 99]%N.
Proof. reflexivity. Qed.

Example decode_cyrillic : u "Тип" = [1058; 1080; 1087]%N.
Proof. reflexivity. Qed.

Example decode_emoji : u "🔑✓" = [128273; 10003]%N.
Proof. reflexivity. Qed.

Example of_int_500 : of_int 500 = u "500".
Proof. reflexivity. Qed.

Example of_int_0 : of_int 0 = u "0".
Proof. reflexivity. Qed.

Example slice_negative : slice_to (u "abcd") (-1) = u "abc".
Proof. reflexivity. Qed.

Example truthy_empty_dict : Py.truthy (JDict []) = false.
Proof. reflexivity. Qed.

Example range_3 : Py.range 3 = [0; 1; 2].
Proof. reflexivity. Qed.

Example range_negative : Py.range (-2) = [].
Proof. reflexivity. Qed.

Example store_keeps_place :
  Py.store (u "b") JNull [(u "a", JInt 1); (u "b", JInt 2); (u "c", JInt 3)]
  = [(u "a", JInt 1); (u "b", JNull); (u "c", JInt 3)].
Proof. reflexivity. Qed.

Example status_error_500 :
  APIClient.status_error 500 (u "oops") = u "API вернул статус 500: oops".
Proof. reflexivity. Qed.

(** ** The classification client *)

Module ClientFacts.

Import APIClient.

Lemma slice_to_length (s : pystr) (n : Z) :
  0 <= n -> n < len s -> len (slice_to s n) = n.
Proof.
  intros Hn Hlt. unfold slice_to, len in *.
  destruct (0 <=? n) eqn:E; [|apply Z.leb_gt in E; lia].
  rewrite length_firstn. lia.
Qed.

Lemma slice_to_prefix (s : pystr) (n : Z) :
  exists rest, s = slice_to s n ++ rest.
Proof.
  unfold slice_to. destruct (0 <=? n).
  - exists (skipn (Z.to_nat n) s). now rewrite firstn_skipn.
  - exists (skipn (Z.to_nat (len s + n)) s). now rewrite firstn_skipn.
Qed.

Lemma classify_message_returns (config : Config) (post : session) (text0 : pystr) :
  exists r, classify_message config post text0 = Return r.
Proof.
  unfold classify_message, try_except, exchange, on_exception, bind.
  destruct (post _) as [e|resp].
  - destruct (is_timeout e); eauto.
  - destruct (text resp) as [e|body].
    + destruct (is_timeout e); eauto.
    + destruct (status resp =? 200); [|eauto].
      destruct (json_body resp) as [e|payload]; [|eauto].
      destruct (is_timeout e); eauto.
Qed.

Lemma request_text_field (config : Config) (text0 : pystr) :
  Py.getitem (body (request_of config text0)) (u "text")
  = Return (JStr (outgoing_text config text0)).
Proof. reflexivity. Qed.

Lemma aborted_call_outcome (config : Config) (post : session) (text0 : pystr)
    (e : raised) :
  aborted_by post (request_of config text0) e ->
  classify_message config post text0 = on_exception e.
Proof.
  unfold classify_message, try_except, exchange, bind.
  intros [H | (resp & H & [Ht | (b & Ht & Hs & Hj)])]; rewrite H; simpl.
  - reflexivity.
  - now rewrite Ht.
  - rewrite Ht, Hs, Hj. reflexivity.
Qed.

(** The outcome of a call depends on the session only through what the
    session does with the request of lines 55-60. *)
Lemma classify_by_answer (config : Config) (post post' : session) (text0 : pystr) :
  post' (request_of config text0) = post (request_of config text0) ->
  classify_message config post' text0 = classify_message config post text0.
Proof.
  intros H. unfold classify_message, exchange, bind. now rewrite H.
Qed.

Lemma decoded_call (config : Config) (post : session) (text0 : pystr)
    (resp : response) (body0 : pystr) (payload : json) :
  post (request_of config text0) = Return resp ->
  text resp = Return body0 ->
  status resp = 200 ->
  json_body resp = Return payload ->
  classify_message config post text0 = Return (APIResponse_init true payload None).
Proof.
  intros Hp Ht Hs Hj. unfold classify_message, try_except, exchange, bind.
  rewrite Hp, Ht, Hs, Hj. reflexivity.
Qed.

End ClientFacts.

(** C6.  [classify_message] never lets an exception out: whatever the
    session does, the call returns a response object.  When the status is
    not 200 the object is a failure whose reason is the text
    [API вернул статус <status>: <body>], which includes the status code
    and the raw body; when the call is aborted by a timeout the object is
    a failure whose reason is the timeout text; when it is aborted by any
    other exception the object is a failure whose reason is [str(e)]. *)
Theorem classify_message_failure_results
    (config : Config) (post : APIClient.session) (text0 : pystr) :
  let req := APIClient.request_of config text0 in
  let outcome := APIClient.classify_message config post text0 in
  (exists r, outcome = Return r)
  /\ (forall resp body,
        post req = Return resp ->
        APIClient.text resp = Return body ->
        APIClient.status resp <> 200 ->
        exists reason,
          outcome = Return (failure reason)
          /\ reason = u "API вернул статус " ++ of_int (APIClient.status resp)
                      ++ u ": " ++ body
          /\ includes reason (of_int (APIClient.status resp))
          /\ includes reason body)
  /\ (forall e,
        aborted_by post req e -> is_timeout e = true ->
        outcome = Return (failure (u "Превышено время ожидания ответа")))
  /\ (forall e,
        aborted_by post req e -> is_timeout e = false ->
        outcome = Return (failure (message e))).
Proof.
  intros req outcome. repeat split.
  - apply ClientFacts.classify_message_returns.
  - intros resp body Hp Ht Hs.
    exists (APIClient.status_error (APIClient.status resp) body).
    repeat split.
    + subst outcome req.
      unfold APIClient.classify_message, try_except, APIClient.exchange, bind.
      rewrite Hp, Ht.
      apply Z.eqb_neq in Hs. rewrite Hs. reflexivity.
    + exists (u "API вернул статус "), (u ": " ++ body). reflexivity.
    + exists (u "API вернул статус " ++ of_int (APIClient.status resp) ++ u ": "), [].
      unfold APIClient.status_error.
      now rewrite app_nil_r, <- !app_assoc.
  - intros e Ha Ht. subst outcome req.
    rewrite (ClientFacts.aborted_call_outcome _ _ _ _ Ha).
    unfold APIClient.on_exception. now rewrite Ht.
  - intros e Ha Ht. subst outcome req.
    rewrite (ClientFacts.aborted_call_outcome _ _ _ _ Ha).
    unfold APIClient.on_exception. now rewrite Ht.
Qed.

(** C7.  With a non-negative [MAX_TEXT_LENGTH], a text longer than
    [MAX_TEXT_LENGTH] goes out cut to its first [MAX_TEXT_LENGTH]
    characters, so the [text] field of the request body has exactly that
    length; a text of at most [MAX_TEXT_LENGTH] characters goes out as it
    is; and the call raises nothing in either case.  The request with that
    body is the one the session is handed: the outcome of the call depends
    on the session only through its answer to this request, a decoded
    answer to it is what the call returns, and an exception raised on it
    is what the [except] clauses receive. *)
Theorem classify_message_truncates
    (config : Config) (post : APIClient.session) (text0 : pystr) :
  0 <= MAX_TEXT_LENGTH config ->
  let req := APIClient.request_of config text0 in
  let sent := Py.getitem (APIClient.body req) (u "text") in
  (len text0 > MAX_TEXT_LENGTH config ->
     exists t rest,
       sent = Return (JStr t) /\ len t = MAX_TEXT_LENGTH config /\ text0 = t ++ rest)
  /\ (len text0 <= MAX_TEXT_LENGTH config -> sent = Return (JStr text0))
  /\ (exists r, APIClient.classify_message config post text0 = Return r)
  /\ (forall post',
        post' req = post req ->
        APIClient.classify_message config post' text0
        = APIClient.classify_message config post text0)
  /\ (forall resp body payload,
        post req = Return resp ->
        APIClient.text resp = Return body ->
        APIClient.status resp = 200 ->
        APIClient.json_body resp = Return payload ->
        APIClient.classify_message config post text0
        = Return (APIResponse_init true payload None))
  /\ (forall e,
        post req = Raise e ->
        APIClient.classify_message config post text0 = APIClient.on_exception e).
Proof.
  intros Hmax req sent. subst sent req. rewrite ClientFacts.request_text_field.
  unfold APIClient.outgoing_text.
  split; [|split; [|split; [|split; [|split]]]].
  - intros Hlong.
    destruct (len text0 >? MAX_TEXT_LENGTH config) eqn:E.
    + destruct (ClientFacts.slice_to_prefix text0 (MAX_TEXT_LENGTH config)) as [rest Hrest].
      exists (slice_to text0 (MAX_TEXT_LENGTH config)), rest.
      split; [reflexivity|]. split; [|exact Hrest].
      apply ClientFacts.slice_to_length; lia.
    + rewrite Z.gtb_ltb in E. apply Z.ltb_ge in E. lia.
  - intros Hshort.
    destruct (len text0 >? MAX_TEXT_LENGTH config) eqn:E; [|reflexivity].
    rewrite Z.gtb_ltb in E. apply Z.ltb_lt in E. lia.
  - apply ClientFacts.classify_message_returns.
  - intros post' Hsame. now apply ClientFacts.classify_by_answer.
  - intros resp body payload Hp Ht Hs Hj.
    exact (ClientFacts.decoded_call config post text0 resp body payload Hp Ht Hs Hj).
  - intros e He. apply ClientFacts.aborted_call_outcome. now left.
Qed.

(** ** Dictionaries *)

Module DictFacts.

Lemma lookup_store_same (k : pystr) (v : json) (d : dict) :
  Py.lookup k (Py.store k v d) = Some v.
Proof.
  induction d as [|[k' v'] d IH]; simpl.
  - now rewrite PyStrFacts.eqb_refl.
  - destruct (PyStr.eqb k k') eqn:E; simpl; rewrite E; [reflexivity | exact IH].
Qed.

Lemma lookup_store_other (k k' : pystr) (v : json) (d : dict) :
  k' <> k -> Py.lookup k' (Py.store k v d) = Py.lookup k' d.
Proof.
  intros Hne. induction d as [|[k0 v0] d IH]; simpl.
  - apply PyStrFacts.eqb_neq in Hne. now rewrite Hne.
  - destruct (PyStr.eqb k k0) eqn:E; simpl.
    + apply PyStrFacts.eqb_eq in E. subst k0.
      apply PyStrFacts.eqb_neq in Hne. now rewrite Hne.
    + now rewrite IH.
Qed.

Lemma keys_store_present (k : pystr) (v x : json) (d : dict) :
  Py.lookup k d = Some x -> map fst (Py.store k v d) = map fst d.
Proof.
  induction d as [|[k0 v0] d IH]; simpl; [discriminate|].
  destruct (PyStr.eqb k k0) eqn:E; simpl; [reflexivity|].
  intros H. now rewrite IH.
Qed.

Lemma lookup_store (k k' : pystr) (v : json) (d : dict) :
  Py.lookup k' (Py.store k v d)
  = if PyStr.eqb k' k then Some v else Py.lookup k' d.
Proof.
  destruct (PyStr.eqb k' k) eqn:E.
  - apply PyStrFacts.eqb_eq in E. subst. apply lookup_store_same.
  - apply PyStrFacts.eqb_neq in E. now apply lookup_store_other.
Qed.

End DictFacts.

(** ** Normalization and formatting *)

Module ResponseFacts.

(** What the comprehension of lines 146-150 yields for the mapping [m]. *)
Lemma normalize_mapping (d : dict) (m : dict) :
  Py.lookup (u "attributes") d = Some (JDict m) ->
  normalize_attributes (JDict d)
  = Return (JDict (Py.store (u "attributes")
                     (JList (map (fun e => attribute (fst e) (snd e))
                                 (filter not_none_entry m))) d)).
Proof.
  intros H. unfold normalize_attributes, Py.get, Py.getitem, bind.
  rewrite H. reflexivity.
Qed.

Lemma normalize_other (d : dict) :
  (forall m, Py.lookup (u "attributes") d <> Some (JDict m)) ->
  normalize_attributes (JDict d) = Return (JDict d).
Proof.
  intros H. unfold normalize_attributes, Py.get, bind.
  destruct (Py.lookup (u "attributes") d) as [[]|] eqn:E; try reflexivity.
  exfalso. eapply H. reflexivity.
Qed.

Lemma normalize_not_dict (v : json) :
  Py.isinstance_dict v = false -> normalize_attributes v = Raise AttributeError.
Proof. destruct v; simpl; intros; try reflexivity; discriminate. Qed.

(** The object [process_api_response] leaves behind when the payload has
    no usable answer is the one the normalization block produced. *)
Lemma process_normalizes (py_repr : json -> pystr) (response : APIResponse)
    (d : dict) (data' : json) :
  success response = true ->
  data response = JDict d ->
  no_answer d ->
  normalize_attributes (JDict d) = Return data' ->
  process_api_response py_repr response
  = (with_data response data', render py_repr data').
Proof.
  intros Hs Hd Hna Hn. unfold process_api_response.
  rewrite Hs, Hd. unfold Py.get. cbv beta iota delta [negb].
  destruct (Py.lookup (u "answer") d) as [a|] eqn:E.
  - rewrite (Hna a E). now rewrite Hn.
  - change (Py.truthy JNull) with false. cbv iota. now rewrite Hn.
Qed.

Lemma in_normalized (m : dict) (a : json) :
  In a (map (fun e => attribute (fst e) (snd e)) (filter not_none_entry m))
  <-> exists name value,
        In (name, value) m /\ value <> JNull /\ a = attribute name value.
Proof.
  rewrite in_map_iff. split.
  - intros [[name value] [Ha Hin]]. apply filter_In in Hin as [Hin Hnn].
    exists name, value. repeat split; auto.
    intros ->. discriminate.
  - intros (name & value & Hin & Hnn & ->).
    exists (name, value). split; [reflexivity|].
    apply filter_In. split; [exact Hin|].
    destruct value; try reflexivity. contradiction.
Qed.

End ResponseFacts.

(** C4.  When a successful response carries a non-empty string under
    [answer], [process_api_response] returns exactly that string and leaves
    the response object as it was: the attributes are neither normalized
    nor formatted, whatever else the payload holds. *)
Theorem answer_passes_through
    (py_repr : json -> pystr) (response : APIResponse) (d : dict) (s : pystr) :
  success response = true ->
  data response = JDict d ->
  Py.lookup (u "answer") d = Some (JStr s) ->
  s <> [] ->
  process_api_response py_repr response = (response, Return (JStr s)).
Proof.
  intros Hs Hd Ha Hne. unfold process_api_response.
  rewrite Hs, Hd. unfold Py.get, Py.getitem. cbv beta iota delta [negb].
  rewrite Ha. destruct s as [|c s]; [contradiction|]. reflexivity.
Qed.

(** C5.  When [attributes] is a mapping, the normalization block replaces
    it by a list of [{name, value}] records: one record per entry whose
    value is not [None], in the order of the mapping, and nothing else.
    [process_api_response] leaves that object behind whenever the payload
    has no usable answer.  The mapping
    [{"serial_number": "ABC123", "equipment_type": null}] becomes
    [[{name: "serial_number", value: "ABC123"}]]. *)
Theorem mapping_attributes_normalized (d m : dict) :
  Py.lookup (u "attributes") d = Some (JDict m) ->
  exists records,
    normalize_attributes (JDict d)
    = Return (JDict (Py.store (u "attributes") (JList records) d))
    /\ Py.get (JDict (Py.store (u "attributes") (JList records) d))
              (u "attributes") JNull = Return (JList records)
    /\ records = map (fun e => attribute (fst e) (snd e))
                     (filter (fun e => negb (Py.is_none (snd e))) m)
    /\ (forall a, In a records <->
          exists name value,
            In (name, value) m /\ value <> JNull /\ a = attribute name value)
    /\ (forall py_repr response,
          success response = true -> data response = JDict d -> no_answer d ->
          data (fst (process_api_response py_repr response))
          = JDict (Py.store (u "attributes") (JList records) d))
    /\ normalize_attributes
         (JDict [(u "attributes",
                  JDict [(u "serial_number", JStr (u "ABC123"));
                         (u "equipment_type", JNull)])])
       = Return
           (JDict [(u "attributes",
                    JList [JDict [(u "name", JStr (u "serial_number"));
                                  (u "value", JStr (u "ABC123"))]])]).
Proof.
  intros Hm.
  exists (map (fun e => attribute (fst e) (snd e)) (filter not_none_entry m)).
  repeat split.
  - now apply ResponseFacts.normalize_mapping.
  - unfold Py.get. now rewrite DictFacts.lookup_store_same.
  - now apply ResponseFacts.in_normalized.
  - now apply ResponseFacts.in_normalized.
  - intros py_repr response Hs Hd Hna.
    rewrite (ResponseFacts.process_normalizes py_repr response d _ Hs Hd Hna
               (ResponseFacts.normalize_mapping d m Hm)).
    reflexivity.
Qed.

(** C9, as amended.  When [attributes] arrived as a mapping, the
    normalization block replaces it by a list of [{name, value}] records:
    one record for each entry of the mapping whose value is not [None] and
    no other, so that every record of the list has a value other than
    [None].  When it arrived as a list, the block leaves the payload as it
    is, so the list keeps whatever values it came with.  In both cases
    this is the object [process_api_response] leaves behind when the
    payload has no usable answer. *)
Theorem normalized_values_by_shape (d : dict) :
  (forall m, Py.lookup (u "attributes") d = Some (JDict m) ->
     exists records,
       normalize_attributes (JDict d)
       = Return (JDict (Py.store (u "attributes") (JList records) d))
       /\ values_never_null (JDict (Py.store (u "attributes") (JList records) d))
       /\ (forall a, In a records <->
             exists name value,
               In (name, value) m /\ value <> JNull /\ a = attribute name value)
       /\ (forall py_repr response,
             success response = true -> data response = JDict d -> no_answer d ->
             data (fst (process_api_response py_repr response))
             = JDict (Py.store (u "attributes") (JList records) d)))
  /\ (forall l, Py.lookup (u "attributes") d = Some (JList l) ->
        normalize_attributes (JDict d) = Return (JDict d)
        /\ Py.get (JDict d) (u "attributes") JNull = Return (JList l)
        /\ (forall py_repr response,
              success response = true -> data response = JDict d -> no_answer d ->
              data (fst (process_api_response py_repr response)) = JDict d)).
Proof.
  split.
  - intros m Hm.
    exists (map (fun e => attribute (fst e) (snd e)) (filter not_none_entry m)).
    split; [exact (ResponseFacts.normalize_mapping d m Hm)|].
    split; [|split].
    + eexists. split.
      * unfold Py.get. rewrite DictFacts.lookup_store_same. reflexivity.
      * intros a Hin.
        apply ResponseFacts.in_normalized in Hin as (name & value & _ & Hnn & ->).
        now exists name, value.
    + intros a. apply ResponseFacts.in_normalized.
    + intros py_repr response Hs Hd Hna.
      rewrite (ResponseFacts.process_normalizes py_repr response d _ Hs Hd Hna
                 (ResponseFacts.normalize_mapping d m Hm)).
      reflexivity.
  - intros l Hl.
    assert (Hn : normalize_attributes (JDict d) = Return (JDict d)).
    { apply ResponseFacts.normalize_other. intros m. rewrite Hl. discriminate. }
    split; [exact Hn|]. split.
    + unfold Py.get. now rewrite Hl.
    + intros py_repr response Hs Hd Hna.
      rewrite (ResponseFacts.process_normalizes py_repr response d _ Hs Hd Hna Hn).
      destruct response; simpl in *. now subst.
Qed.

(** C9 as stated fails: a list that holds a record with a [None] value
    goes through the normalization block unchanged. *)
Lemma list_attributes_keep_null :
  ~ (forall data data' attrs a,
       normalize_attributes data = Return data' ->
       Py.get data' (u "attributes") JNull = Return (JList attrs) ->
       In a attrs ->
       Py.getitem a (u "value") <> Return JNull).
Proof.
  intros H.
  pose (payload :=
          JDict [(u "attributes",
                  JList [JDict [(u "name", JStr (u "serial_number"));
                                (u "value", JNull)]])]).
  apply (H payload payload
           [JDict [(u "name", JStr (u "serial_number")); (u "value", JNull)]]
           (JDict [(u "name", JStr (u "serial_number")); (u "value", JNull)])
           eq_refl).
  - reflexivity.
  - now left.
  - reflexivity.
Qed.

(** C10.  [process_api_response] changes nothing of the response object
    but the value under [attributes] of its payload: the flags, the keys of
    the payload and their order, and the value under every other key are
    those it was given.  A payload that is not a dictionary is left as it
    is. *)
Theorem process_api_response_frame
    (py_repr : json -> pystr) (response : APIResponse) :
  let response' := fst (process_api_response py_repr response) in
  success response' = success response
  /\ error response' = error response
  /\ (forall d, data response = JDict d ->
        exists d',
          data response' = JDict d'
          /\ map fst d' = map fst d
          /\ forall k, k <> u "attributes" -> Py.lookup k d' = Py.lookup k d)
  /\ (Py.isinstance_dict (data response) = false ->
        data response' = data response).
Proof.
  assert (Hcases :
    fst (process_api_response py_repr response) = response
    \/ exists d m,
         data response = JDict d
         /\ Py.lookup (u "attributes") d = Some (JDict m)
         /\ fst (process_api_response py_repr response)
            = with_data response
                (JDict (Py.store (u "attributes")
                          (JList (map (fun e => attribute (fst e) (snd e))
                                      (filter not_none_entry m))) d))).
  { unfold process_api_response.
    destruct (success response); [|now left]. cbv beta iota delta [negb].
    destruct (Py.get (data response) (u "answer") JNull) as [e|answer];
      [now left|].
    destruct (Py.truthy answer); [now left|].
    destruct (data response) as [| | | | | |d] eqn:Hd;
      try (rewrite ResponseFacts.normalize_not_dict by reflexivity; now left).
    destruct (Py.lookup (u "attributes") d) as [v|] eqn:Hv.
    - destruct (Py.isinstance_dict v) eqn:Hi.
      + destruct v; try discriminate.
        right. exists d, entries. repeat split; auto.
        now rewrite (ResponseFacts.normalize_mapping d entries Hv).
      + rewrite ResponseFacts.normalize_other.
        * left. destruct response; simpl in *. now subst.
        * intros m Hm. rewrite Hm in Hv. injection Hv as <-. discriminate.
    - rewrite ResponseFacts.normalize_other.
      + left. destruct response; simpl in *. now subst.
      + intros m Hm. congruence. }
  intros response'. subst response'.
  destruct Hcases as [-> | (d & m & Hd & Hm & ->)].
  - repeat split; auto. intros d Hd. exists d. auto.
  - repeat split; auto.
    + intros d0 Hd0. rewrite Hd in Hd0. injection Hd0 as <-.
      eexists. split; [reflexivity|]. split.
      * eapply DictFacts.keys_store_present; eauto.
      * intros k Hk. now apply DictFacts.lookup_store_other.
    + rewrite Hd. discriminate.
Qed.

Module ShapeFacts.

Lemma render_by_fields (py_repr : json -> pystr) (d : dict) :
  render py_repr (JDict d)
  = if Py.truthy (or_default (Py.lookup (u "valid") d) JNull) then
      reply <- MessageFormatter.format_successful_classification py_repr
                 (or_default (Py.lookup (u "attributes") d) (JList []))
                 (or_default (Py.lookup (u "keywords") d) (JList [])) ;;
      Return (JStr reply)
    else
      reply <- MessageFormatter.format_missing_info py_repr
                 (or_default (Py.lookup (u "missingAttributes") d) (JList []))
                 (or_default (Py.lookup (u "attributes") d) (JList [])) ;;
      Return (JStr reply).
Proof.
  unfold render, Py.get, bind, or_default.
  destruct (Py.lookup (u "valid") d) as [v|];
    destruct (Py.lookup (u "attributes") d) as [a|];
    destruct (Py.lookup (u "keywords") d) as [k|];
    destruct (Py.lookup (u "missingAttributes") d) as [m|];
    reflexivity.
Qed.

Lemma process_by_fields (py_repr : json -> pystr) (response : APIResponse) (d : dict) :
  success response = true ->
  data response = JDict d ->
  snd (process_api_response py_repr response)
  = reply_of_fields py_repr
      (Py.lookup (u "answer") d) (Py.lookup (u "attributes") d)
      (Py.lookup (u "valid") d) (Py.lookup (u "keywords") d)
      (Py.lookup (u "missingAttributes") d).
Proof.
  intros Hs Hd. unfold process_api_response, reply_of_fields.
  rewrite Hs, Hd. unfold Py.get, Py.getitem. cbv beta iota delta [negb].
  assert (Hrest :
    snd match normalize_attributes (JDict d) with
        | Raise e => (response, Raise e)
        | Return data' => (with_data response data', render py_repr data')
        end
    = if Py.truthy (or_default (Py.lookup (u "valid") d) JNull) then
        reply <- MessageFormatter.format_successful_classification py_repr
                   (or_default (normalized_field (Py.lookup (u "attributes") d))
                      (JList []))
                   (or_default (Py.lookup (u "keywords") d) (JList [])) ;;
        Return (JStr reply)
      else
        reply <- MessageFormatter.format_missing_info py_repr
                   (or_default (Py.lookup (u "missingAttributes") d) (JList []))
                   (or_default (normalized_field (Py.lookup (u "attributes") d))
                      (JList [])) ;;
        Return (JStr reply)).
  { destruct (Py.lookup (u "attributes") d) as [v|] eqn:Hv.
    - destruct (Py.isinstance_dict v) eqn:Hi.
      + destruct v; try discriminate.
        rewrite (ResponseFacts.normalize_mapping d entries Hv).
        cbv beta iota delta [snd]. rewrite render_by_fields.
        rewrite !DictFacts.lookup_store. reflexivity.
      + rewrite ResponseFacts.normalize_other.
        * cbv beta iota delta [snd]. rewrite render_by_fields.
          rewrite Hv. destruct v; try reflexivity. discriminate.
        * intros m Hm. rewrite Hm in Hv. injection Hv as <-. discriminate.
    - rewrite ResponseFacts.normalize_other by congruence.
      cbv beta iota delta [snd]. rewrite render_by_fields.
      now rewrite Hv. }
  destruct (Py.lookup (u "answer") d) as [a|] eqn:Ha; cbn [or_default].
  - destruct (Py.truthy a) eqn:Ht; [reflexivity | exact Hrest].
  - change (Py.truthy JNull) with false. cbv iota. exact Hrest.
Qed.

End ShapeFacts.

Module FormatterFacts.

Section Totality.

Variable py_repr : json -> pystr.

Lemma attr_label_returns (names : list (pystr * pystr)) (a : json) :
  renderable a -> exists label, MessageFormatter.attr_label names a = Return label.
Proof.
  intros (e & n & v & -> & Hn & Hv).
  unfold MessageFormatter.attr_label, Py.getitem, bind. rewrite Hn.
  unfold Py.table_get. destruct (Py.table_lookup n names); eauto.
Qed.

Lemma success_line_returns (reply : pystr) (a : json) :
  renderable a ->
  exists reply', MessageFormatter.success_line py_repr reply a = Return reply'.
Proof.
  intros Ha. unfold MessageFormatter.success_line.
  destruct (attr_label_returns MessageFormatter.success_names a Ha) as [label ->].
  destruct Ha as (e & n & v & -> & Hn & Hv).
  unfold bind, Py.getitem. rewrite Hv. eauto.
Qed.

Lemma recognized_line_returns (reply : pystr) (a : json) :
  renderable a ->
  exists reply', MessageFormatter.recognized_line py_repr reply a = Return reply'.
Proof.
  intros Ha. unfold MessageFormatter.recognized_line.
  destruct (attr_label_returns MessageFormatter.missing_names a Ha) as [label ->].
  destruct Ha as (e & n & v & -> & Hn & Hv).
  unfold bind, Py.getitem. rewrite Hv. eauto.
Qed.

Lemma missing_line_returns (reply : pystr) (a : json) :
  is_str a = true ->
  exists reply', MessageFormatter.missing_line py_repr reply a = Return reply'.
Proof.
  destruct a; try discriminate. intros _.
  unfold MessageFormatter.missing_line, Py.table_get, bind.
  destruct (Py.table_lookup s MessageFormatter.missing_names); eauto.
Qed.

Lemma for_each_returns {A} (f : pystr -> A -> result exn pystr) (P : A -> Prop)
    (l : list A) :
  (forall reply x, P x -> exists reply', f reply x = Return reply') ->
  Forall P l ->
  forall reply, exists reply', for_each f l reply = Return reply'.
Proof.
  intros Hf Hl. induction Hl as [|x l Hx _ IH]; intros reply; simpl.
  - eauto.
  - destruct (Hf reply x Hx) as [reply' ->]. simpl. apply IH.
Qed.

Lemma join_returns (sep : pystr) (l : list json) :
  forallb is_str l = true -> exists joined, Py.join sep (JList l) = Return joined.
Proof.
  intros Hl. unfold Py.join, Py.iter, bind.
  assert (H : exists parts, mapM Py.as_str l = Return parts).
  { induction l as [|x l IH]; simpl; [eauto|].
    simpl in Hl. apply andb_true_iff in Hl as [Hx Hl].
    destruct x; try discriminate. simpl.
    destruct (IH Hl) as [parts ->]. simpl. eauto. }
  destruct H as [parts ->]. eauto.
Qed.

Lemma format_successful_classification_returns (attrs keywords : list json) :
  Forall renderable attrs ->
  forallb is_str keywords = true ->
  exists reply,
    MessageFormatter.format_successful_classification py_repr
      (JList attrs) (JList keywords) = Return reply.
Proof.
  intros Ha Hk. unfold MessageFormatter.format_successful_classification.
  unfold Py.iter at 1. unfold bind at 1.
  destruct (for_each_returns (MessageFormatter.success_line py_repr) renderable attrs
              (fun reply x => success_line_returns reply x) Ha
              (u "✅ Заявка успешно классифицирована:" ++ nl ++ nl))
    as [reply ->].
  unfold bind at 1.
  destruct (Py.truthy (JList keywords)); [|eauto].
  destruct (join_returns (u ", ") keywords Hk) as [joined ->]. simpl. eauto.
Qed.

Lemma format_missing_info_returns (missing attrs : list json) :
  forallb is_str missing = true ->
  Forall renderable attrs ->
  exists reply,
    MessageFormatter.format_missing_info py_repr (JList missing) (JList attrs)
    = Return reply.
Proof.
  intros Hm Ha. unfold MessageFormatter.format_missing_info.
  assert (Hall : Forall (fun a => is_str a = true) missing)
    by (apply Forall_forall; intros x Hx;
        exact (proj1 (forallb_forall is_str missing) Hm x Hx)).
  destruct (Py.truthy (JList attrs)).
  - unfold Py.iter at 1. unfold bind at 2.
    destruct (for_each_returns (MessageFormatter.recognized_line py_repr) renderable attrs
                (fun reply x => recognized_line_returns reply x) Ha
                ((u "⚠️ Для обработки заявки требуется дополнительная информация"
                    ++ nl ++ nl) ++ u "✓ Уже распознано:" ++ nl))
      as [reply ->].
    unfold bind, Py.iter.
    apply (for_each_returns (MessageFormatter.missing_line py_repr)
             (fun a => is_str a = true) missing
             (fun reply x => missing_line_returns reply x) Hall).
  - unfold bind, Py.iter.
    apply (for_each_returns (MessageFormatter.missing_line py_repr)
             (fun a => is_str a = true) missing
             (fun reply x => missing_line_returns reply x) Hall).
Qed.

End Totality.

End FormatterFacts.

Module DefaultFacts.

Lemma attribute_renderable (name : pystr) (value : json) :
  renderable (attribute name value).
Proof. exists [(u "name", JStr name); (u "value", value)], name, value. auto. Qed.

Lemma is_attribute_renderable (a : json) : is_attribute a = true -> renderable a.
Proof.
  destruct a as [| | | | | |e]; try discriminate. simpl.
  destruct (Py.lookup (u "name") e) as [[| | | |n| |]|] eqn:Hn; try discriminate.
  destruct (Py.lookup (u "value") e) as [v|] eqn:Hv; try discriminate.
  intros _. exists e, n, v. auto.
Qed.

(** The attribute list the formatters receive from a payload of the
    documented shape. *)
Lemma shaped_attributes (d : dict) :
  optional (u "attributes") is_attributes d = true ->
  exists attrs,
    or_default (normalized_field (Py.lookup (u "attributes") d)) (JList [])
    = JList attrs
    /\ Forall renderable attrs.
Proof.
  unfold optional, or_default, normalized_field.
  destruct (Py.lookup (u "attributes") d) as [[| | | | |l|m]|]; try discriminate.
  - intros H. exists l. split; [reflexivity|].
    apply Forall_forall. intros a Ha. apply is_attribute_renderable.
    exact (proj1 (forallb_forall is_attribute l) H a Ha).
  - intros _. eexists. split; [reflexivity|].
    apply Forall_forall. intros a Ha. apply in_map_iff in Ha as [e [<- _]].
    apply attribute_renderable.
  - intros _. exists []. split; [reflexivity | constructor].
Qed.

Lemma shaped_strings (k : pystr) (d : dict) :
  optional k is_str_list d = true ->
  exists l,
    or_default (Py.lookup k d) (JList []) = JList l /\ forallb is_str l = true.
Proof.
  unfold optional, or_default.
  destruct (Py.lookup k d) as [[| | | | |l|]|]; try discriminate.
  - intros H. exists l. auto.
  - intros _. exists []. auto.
Qed.

End DefaultFacts.

(** C8.  For a successful response whose payload has the documented shape
    with any of its optional keys left out, [process_api_response] raises
    nothing and returns a reply string.  An absent [valid] counts as
    [false], and an absent [attributes], [missingAttributes] or [keywords]
    as the empty list: putting the default under the absent key does not
    change the reply. *)
Theorem absent_fields_defaulted
    (py_repr : json -> pystr) (response : APIResponse) (d : dict) :
  success response = true ->
  data response = JDict d ->
  payload_shape d = true ->
  (exists reply,
     snd (process_api_response py_repr response) = Return (JStr reply))
  /\ (forall k default,
        In (k, default) optional_defaults ->
        Py.lookup k d = None ->
        snd (process_api_response py_repr
               (with_data response (JDict (Py.store k default d))))
        = snd (process_api_response py_repr response)).
Proof.
  intros Hs Hd Hshape. split.
  - rewrite (ShapeFacts.process_by_fields py_repr response d Hs Hd).
    unfold payload_shape in Hshape.
    repeat (apply andb_true_iff in Hshape as [Hshape ?]).
    destruct (DefaultFacts.shaped_attributes d) as (attrs & Hattrs & Hren);
      [assumption|].
    destruct (DefaultFacts.shaped_strings (u "keywords") d) as (kw & Hkw & Hkws);
      [assumption|].
    destruct (DefaultFacts.shaped_strings (u "missingAttributes") d)
      as (ms & Hms & Hmss); [assumption|].
    unfold reply_of_fields. rewrite Hattrs, Hkw, Hms.
    assert (Hfmt : exists reply,
      (if Py.truthy (or_default (Py.lookup (u "valid") d) JNull)
       then reply <- MessageFormatter.format_successful_classification py_repr
                       (JList attrs) (JList kw) ;; Return (JStr reply)
       else reply <- MessageFormatter.format_missing_info py_repr
                       (JList ms) (JList attrs) ;; Return (JStr reply))
      = Return (JStr reply)).
    { destruct (Py.truthy _).
      - destruct (FormatterFacts.format_successful_classification_returns
                    py_repr attrs kw Hren Hkws) as [reply ->]. simpl. eauto.
      - destruct (FormatterFacts.format_missing_info_returns
                    py_repr ms attrs Hmss Hren) as [reply ->]. simpl. eauto. }
    unfold optional in Hshape.
    destruct (Py.lookup (u "answer") d) as [[| | | |s| |]|]; try discriminate.
    + destruct s as [|c s]; [exact Hfmt|]. simpl. eauto.
    + exact Hfmt.
  - intros k default Hin Hnone.
    rewrite (ShapeFacts.process_by_fields py_repr response d Hs Hd).
    rewrite (ShapeFacts.process_by_fields py_repr
               (with_data response (JDict (Py.store k default d)))
               (Py.store k default d) Hs eq_refl).
    rewrite !DictFacts.lookup_store.
    unfold optional_defaults in Hin. simpl in Hin.
    destruct Hin as [Hin | [Hin | [Hin | [Hin | []]]]];
      injection Hin as <- <-;
      change (PyStr.eqb (u "answer") _) with false;
      cbv iota.
    + change (PyStr.eqb (u "attributes") (u "valid")) with false.
      change (PyStr.eqb (u "valid") (u "valid")) with true.
      change (PyStr.eqb (u "keywords") (u "valid")) with false.
      change (PyStr.eqb (u "missingAttributes") (u "valid")) with false.
      cbv iota. rewrite Hnone. reflexivity.
    + change (PyStr.eqb (u "attributes") (u "attributes")) with true.
      change (PyStr.eqb (u "valid") (u "attributes")) with false.
      change (PyStr.eqb (u "keywords") (u "attributes")) with false.
      change (PyStr.eqb (u "missingAttributes") (u "attributes")) with false.
      cbv iota. rewrite Hnone. reflexivity.
    + change (PyStr.eqb (u "attributes") (u "missingAttributes")) with false.
      change (PyStr.eqb (u "valid") (u "missingAttributes")) with false.
      change (PyStr.eqb (u "keywords") (u "missingAttributes")) with false.
      change (PyStr.eqb (u "missingAttributes") (u "missingAttributes")) with true.
      cbv iota. rewrite Hnone. reflexivity.
    + change (PyStr.eqb (u "attributes") (u "keywords")) with false.
      change (PyStr.eqb (u "valid") (u "keywords")) with false.
      change (PyStr.eqb (u "keywords") (u "keywords")) with true.
      change (PyStr.eqb (u "missingAttributes") (u "keywords")) with false.
      cbv iota. rewrite Hnone. reflexivity.
Qed.

(** ** The retry loop *)

Module RetryFacts.

Section Loop.

Variable py_repr : json -> pystr.
Variable w : collaborators.
Variable config : Config.
Variable text : pystr.

Lemma replies_app (l l' : list event) : replies (l ++ l') = replies l ++ replies l'.
Proof. apply filter_app. Qed.

(** The [try] block either delivers the formatted reply and ends the loop,
    or raises after the call without delivering anything. *)
Lemma try_block_cases (attempt : Z) (log : list event) :
  (exists reply,
     formatted py_repr w text attempt = Some reply
     /\ try_block py_repr w text attempt log
        = ((log ++ [Called text]) ++ [Replied reply], Return tt))
  \/ (exists f,
        try_block py_repr w text attempt log = (log ++ [Called text], Raise f)
        /\ (formatted py_repr w text attempt = None
            \/ exists reply e,
                 formatted py_repr w text attempt = Some reply
                 /\ reply_to w attempt reply = Raise e)).
Proof.
  unfold try_block, formatted.
  destruct (classify w attempt text) as [e|response]; [right; eauto|].
  destruct (snd (process_api_response py_repr response)) as [e|reply];
    [right; eauto|].
  destruct (reply_to w attempt reply) as [e|[]] eqn:Hr.
  - right. eexists. split; [reflexivity|]. right. eauto.
  - left. eauto.
Qed.

Lemma range_unfold (n : Z) :
  Py.range n = map Z.of_nat (seq 0 (Z.to_nat n)).
Proof. reflexivity. Qed.

(** Never two replies: the loop over the attempts [k], ..., [N - 1] adds at
    most one reply to the log. *)
Lemma attempts_at_most_one (N : nat) :
  MAX_RETRIES config = Z.of_nat N ->
  forall m k log,
    (k + m = N)%nat ->
    (List.length (replies (fst (attempts py_repr w config text
                                  (map Z.of_nat (seq k m)) log)))
     <= List.length (replies log) + 1)%nat.
Proof.
  intros HN. induction m as [|m IH]; intros k log Hk; simpl; [lia|].
  destruct (try_block_cases (Z.of_nat k) log) as [(reply & _ & ->) | (f & -> & _)].
  - simpl. rewrite !replies_app, !length_app. simpl. lia.
  - destruct (Z.of_nat k =? MAX_RETRIES config - 1) eqn:Elast.
    + apply Z.eqb_eq in Elast.
      assert (m = 0%nat) by lia. subst m. simpl.
      destruct (reply_apology w (Z.of_nat k)); simpl;
        rewrite ?replies_app, ?length_app; simpl; lia.
    + specialize (IH (S k) ((log ++ [Called text]) ++ [Slept (RETRY_DELAY config)])).
      rewrite !replies_app, !length_app in IH. simpl in IH.
      assert (Hnext : (S k + m = N)%nat) by lia.
      specialize (IH Hnext). lia.
Qed.

(** With a platform that delivers, the loop over the attempts [k], ...,
    [N - 1] ends normally after exactly one reply: the formatted reply of
    the first attempt that raises nothing, or the apology when all of them
    raise. *)
Lemma attempts_exactly_one (N : nat) :
  MAX_RETRIES config = Z.of_nat N ->
  reliable_delivery w ->
  forall m k log,
    (k + S m = N)%nat ->
    exists log' reply,
      attempts py_repr w config text (map Z.of_nat (seq k (S m))) log
      = (log', Return tt)
      /\ replies log' = replies log ++ [Replied reply]
      /\ ((exists j,
             Z.of_nat k <= j < Z.of_nat N
             /\ formatted py_repr w text j = Some reply
             /\ forall i, Z.of_nat k <= i < j -> formatted py_repr w text i = None)
          \/ (reply = JStr exhausted_reply
              /\ forall i, Z.of_nat k <= i < Z.of_nat N ->
                           formatted py_repr w text i = None)).
Proof.
  intros HN [Hreply Hapology]. induction m as [|m IH]; intros k log Hk.
  - cbn [seq map attempts].
    destruct (try_block_cases (Z.of_nat k) log)
      as [(reply & Hf & ->) | (f & -> & [Hf | (reply & e & _ & He)])].
    + exists ((log ++ [Called text]) ++ [Replied reply]), reply.
      split; [reflexivity|]. split.
      * rewrite !replies_app. simpl. now rewrite app_nil_r.
      * left. exists (Z.of_nat k). repeat split; try lia; auto; intros i Hi; lia.
    + assert (Elast : (Z.of_nat k =? MAX_RETRIES config - 1) = true)
        by (apply Z.eqb_eq; lia).
      rewrite Elast, Hapology.
      exists ((log ++ [Called text]) ++ [Replied (JStr exhausted_reply)]),
        (JStr exhausted_reply).
      split; [reflexivity|]. split.
      * rewrite !replies_app. simpl. now rewrite app_nil_r.
      * right. split; [reflexivity|]. intros i Hi.
        assert (i = Z.of_nat k) by lia. now subst.
    + rewrite Hreply in He. discriminate.
  - cbn [seq map attempts].
    destruct (try_block_cases (Z.of_nat k) log)
      as [(reply & Hf & ->) | (f & -> & [Hf | (reply & e & _ & He)])].
    + exists ((log ++ [Called text]) ++ [Replied reply]), reply.
      split; [reflexivity|]. split.
      * rewrite !replies_app. simpl. now rewrite app_nil_r.
      * left. exists (Z.of_nat k). repeat split; try lia; auto; intros i Hi; lia.
    + assert (Elast : (Z.of_nat k =? MAX_RETRIES config - 1) = false)
        by (apply Z.eqb_neq; lia).
      rewrite Elast.
      destruct (IH (S k) ((log ++ [Called text]) ++ [Slept (RETRY_DELAY config)]))
        as (log' & reply & Hrun & Hlog & Hwhich); [lia|].
      exists log', reply. split; [exact Hrun|]. split.
      * rewrite Hlog, !replies_app. simpl. now rewrite !app_nil_r.
      * destruct Hwhich as [(j & Hj & Hfj & Hbefore) | (-> & Hall)].
        -- left. exists j. repeat split; try lia; auto.
           intros i Hi. destruct (Z.eq_dec i (Z.of_nat k)) as [->|Hne]; auto.
           apply Hbefore. lia.
        -- right. split; [reflexivity|]. intros i Hi.
           destruct (Z.eq_dec i (Z.of_nat k)) as [->|Hne]; auto.
           apply Hall. lia.
    + rewrite Hreply in He. discriminate.
Qed.

End Loop.

End RetryFacts.

(** C1, as amended.  Whatever the collaborators do, a run of
    [handle_message] delivers at most one reply.  When [MAX_RETRIES] is at
    least 1 and the chat platform delivers what it is given, the run ends
    normally and delivers exactly one reply: the formatted reply of the
    first attempt in which neither the client call nor the processing
    raised, or the fixed apology when every attempt raised. *)
Theorem one_reply_per_message
    (py_repr : json -> pystr) (w : collaborators) (config : Config) (text : pystr) :
  let run := handle_message py_repr w config text in
  (List.length (replies (fst run)) <= 1)%nat
  /\ (1 <= MAX_RETRIES config ->
      reliable_delivery w ->
      snd run = Return tt
      /\ exists reply,
           replies (fst run) = [Replied reply]
           /\ ((exists attempt,
                  0 <= attempt < MAX_RETRIES config
                  /\ formatted py_repr w text attempt = Some reply
                  /\ forall earlier, 0 <= earlier < attempt ->
                       formatted py_repr w text earlier = None)
               \/ (reply = JStr exhausted_reply
                   /\ forall attempt, 0 <= attempt < MAX_RETRIES config ->
                        formatted py_repr w text attempt = None))).
Proof.
  intros run. subst run. unfold handle_message. rewrite RetryFacts.range_unfold.
  split.
  - destruct (Z_le_gt_dec (MAX_RETRIES config) 0) as [Hle|Hgt].
    + replace (Z.to_nat (MAX_RETRIES config)) with 0%nat by lia. simpl. lia.
    + apply (RetryFacts.attempts_at_most_one py_repr w config text
               (Z.to_nat (MAX_RETRIES config))); lia.
  - intros Hn Hrel.
    destruct (Z.to_nat (MAX_RETRIES config)) as [|m] eqn:Em; [lia|].
    destruct (RetryFacts.attempts_exactly_one py_repr w config text (S m)
                ltac:(lia) Hrel m 0%nat [] eq_refl)
      as (log' & reply & Hrun & Hlog & Hwhich).
    rewrite Hrun. simpl. split; [reflexivity|].
    exists reply. split; [exact Hlog|].
    replace (MAX_RETRIES config) with (Z.of_nat (S m)) by lia.
    exact Hwhich.
Qed.

(** C1 as stated fails.  With [MAX_RETRIES = 0] the loop makes no attempt
    and the run ends without any reply, although the client would have
    answered and the platform would have delivered.  With the default
    [MAX_RETRIES = 3] and a platform that refuses every delivery, the run
    ends without any reply as well, and the last exception leaves
    [handle_message]. *)
Lemma message_without_reply :
  handle_message no_repr answering_world (config_with_retries 0) (u "printer is broken")
  = ([], Return tt)
  /\ ~ exactly_one_reply
         (fst (handle_message no_repr answering_world (config_with_retries 0)
                 (u "printer is broken")))
  /\ replies (fst (handle_message no_repr undeliverable_world (config_with_retries 3)
                     (u "printer is broken"))) = []
  /\ snd (handle_message no_repr undeliverable_world (config_with_retries 3)
            (u "printer is broken"))
     = Raise (Raised false (u "Bad Gateway")).
Proof.
  repeat split.
  unfold exactly_one_reply. vm_compute. discriminate.
Qed.

(** C2.  When the first client call returns a response object with
    [success = False] (and [MAX_RETRIES] allows a first call, and the
    platform delivers the reply), the run consists of that one call
    followed by the reply [Произошла ошибка при обработке заявки. ...]:
    no second call, no sleep. *)
Theorem clean_failure_not_retried
    (py_repr : json -> pystr) (w : collaborators) (config : Config) (text : pystr)
    (response : APIResponse) :
  1 <= MAX_RETRIES config ->
  classify w 0 text = Return response ->
  success response = false ->
  reply_to w 0 (JStr api_error_reply) = Return tt ->
  handle_message py_repr w config text
  = ([Called text; Replied (JStr api_error_reply)], Return tt)
  /\ List.length (calls (fst (handle_message py_repr w config text))) = 1%nat
  /\ sleeps (fst (handle_message py_repr w config text)) = [].
Proof.
  intros Hn Hc Hs Hr.
  assert (Hrun : handle_message py_repr w config text
                 = ([Called text; Replied (JStr api_error_reply)], Return tt)).
  { unfold handle_message. rewrite RetryFacts.range_unfold.
    destruct (Z.to_nat (MAX_RETRIES config)) as [|m] eqn:Em; [lia|].
    cbn [seq map attempts]. unfold try_block.
    change (Z.of_nat 0) with 0. rewrite Hc.
    unfold process_api_response. rewrite Hs. cbn [negb snd].
    rewrite Hr. reflexivity. }
  rewrite Hrun. repeat split.
Qed.

(** C3.  With [MAX_RETRIES = 3], a client that raises on every call and a
    platform that delivers the apology, the run is: call, sleep
    [RETRY_DELAY], call, sleep [RETRY_DELAY], call, apology.  Three calls,
    a sleep between consecutive ones, and one reply, the apology, after
    the last. *)
Theorem retries_exhausted
    (py_repr : json -> pystr) (w : collaborators) (config : Config) (text : pystr) :
  MAX_RETRIES config = 3 ->
  (forall attempt, exists e, classify w attempt text = Raise e) ->
  reply_apology w 2 = Return tt ->
  handle_message py_repr w config text
  = ([Called text; Slept (RETRY_DELAY config);
      Called text; Slept (RETRY_DELAY config);
      Called text; Replied (JStr exhausted_reply)], Return tt)
  /\ List.length (calls (fst (handle_message py_repr w config text))) = 3%nat
  /\ replies (fst (handle_message py_repr w config text))
     = [Replied (JStr exhausted_reply)].
Proof.
  intros Hn Hc Hr.
  assert (Hrun : handle_message py_repr w config text
                 = ([Called text; Slept (RETRY_DELAY config);
                     Called text; Slept (RETRY_DELAY config);
                     Called text; Replied (JStr exhausted_reply)], Return tt)).
  { unfold handle_message. rewrite Hn.
    change (Py.range 3) with [0; 1; 2].
    cbn [attempts]. unfold try_block. rewrite Hn.
    destruct (Hc 0) as [e0 ->]. destruct (Hc 1) as [e1 ->].
    destruct (Hc 2) as [e2 ->].
    cbn. rewrite Hr. reflexivity. }
  rewrite Hrun. repeat split.
Qed.

(** ** The theorems at concrete inputs *)

Lemma one_reply_per_message_witness :
  1 <= MAX_RETRIES (config_with_retries 3)
  /\ reliable_delivery answering_world
  /\ snd (handle_message no_repr answering_world (config_with_retries 3)
            (u "printer is broken")) = Return tt
  /\ replies (fst (handle_message no_repr answering_world (config_with_retries 3)
                     (u "printer is broken")))
     = [Replied (JStr (u "ok"))].
Proof.
  assert (H1 : 1 <= MAX_RETRIES (config_with_retries 3)) by (simpl; lia).
  assert (H2 : reliable_delivery answering_world) by (split; reflexivity).
  split; [exact H1|]. split; [exact H2|].
  destruct (proj2 (one_reply_per_message no_repr answering_world
                     (config_with_retries 3) (u "printer is broken")) H1 H2)
    as [Hend _].
  split; [exact Hend | reflexivity].
Defined.

Lemma clean_failure_not_retried_witness :
  handle_message no_repr status_500_world (config_with_retries 3) (u "printer is broken")
  = ([Called (u "printer is broken"); Replied (JStr api_error_reply)], Return tt).
Proof.
  apply (clean_failure_not_retried no_repr status_500_world (config_with_retries 3)
           (u "printer is broken")
           (APIResponse_init false JNull (Some (u "status 500")))).
  - simpl. lia.
  - reflexivity.
  - reflexivity.
  - reflexivity.
Defined.

Lemma retries_exhausted_witness :
  handle_message no_repr failing_world (config_with_retries 3) (u "printer is broken")
  = ([Called (u "printer is broken"); Slept 5;
      Called (u "printer is broken"); Slept 5;
      Called (u "printer is broken"); Replied (JStr exhausted_reply)], Return tt).
Proof.
  apply (retries_exhausted no_repr failing_world (config_with_retries 3)
           (u "printer is broken")).
  - reflexivity.
  - intros attempt. exists (Raised false (u "Connection reset")). reflexivity.
  - reflexivity.
Defined.

Lemma answer_passes_through_witness :
  process_api_response no_repr (successful answer_payload)
  = (successful answer_payload, Return (JStr (u "Перезагрузите принтер"))).
Proof.
  apply (answer_passes_through no_repr (successful answer_payload) answer_payload
           (u "Перезагрузите принтер")).
  - reflexivity.
  - reflexivity.
  - reflexivity.
  - discriminate.
Defined.

Lemma mapping_attributes_normalized_witness :
  exists records,
    normalize_attributes (JDict mapping_payload)
    = Return (JDict (Py.store (u "attributes") (JList records) mapping_payload))
    /\ records = [attribute (u "serial_number") (JStr (u "ABC123"))].
Proof.
  destruct (mapping_attributes_normalized mapping_payload
              [(u "serial_number", JStr (u "ABC123")); (u "equipment_type", JNull)]
              eq_refl)
    as (records & Hrun & _ & Hrecords & _).
  exists records. split; [exact Hrun|].
  rewrite Hrecords. vm_compute. reflexivity.
Defined.

Lemma classify_message_failure_results_witness :
  APIClient.classify_message (config_with_max_text 4096) status_500_session
    (u "printer is broken")
  = Return (failure (u "API вернул статус 500: Internal Server Error"))
  /\ APIClient.classify_message (config_with_max_text 4096) timeout_session
       (u "printer is broken")
     = Return (failure (u "Превышено время ожидания ответа"))
  /\ APIClient.classify_message (config_with_max_text 4096) reset_session
       (u "printer is broken")
     = Return (failure (message (Raised false (u "Connection reset by peer")))).
Proof.
  split; [|split].
  - destruct (proj1 (proj2 (classify_message_failure_results
                              (config_with_max_text 4096) status_500_session
                              (u "printer is broken")))
                {| APIClient.status := 500;
                   APIClient.text := Return (u "Internal Server Error");
                   APIClient.json_body := Raise (Raised false (u "not JSON")) |}
                (u "Internal Server Error") eq_refl eq_refl)
      as (reason & Hrun & Hreason & _).
    + simpl. discriminate.
    + rewrite Hrun, Hreason. vm_compute. reflexivity.
  - apply (proj1 (proj2 (proj2 (classify_message_failure_results
                                  (config_with_max_text 4096) timeout_session
                                  (u "printer is broken"))))
             (Raised true [])).
    + left. reflexivity.
    + reflexivity.
  - apply (proj2 (proj2 (proj2 (classify_message_failure_results
                                  (config_with_max_text 4096) reset_session
                                  (u "printer is broken"))))
             (Raised false (u "Connection reset by peer"))).
    + left. reflexivity.
    + reflexivity.
Defined.

Lemma classify_message_truncates_witness :
  0 <= MAX_TEXT_LENGTH (config_with_max_text 5)
  /\ len (u "printer is broken") > MAX_TEXT_LENGTH (config_with_max_text 5)
  /\ (exists t rest,
        Py.getitem (APIClient.body (APIClient.request_of (config_with_max_text 5)
                                      (u "printer is broken"))) (u "text")
        = Return (JStr t)
        /\ len t = 5 /\ u "printer is broken" = t ++ rest)
  /\ APIClient.classify_message (config_with_max_text 5) echo_session
       (u "printer is broken")
     = Return (APIResponse_init true
                 (APIClient.body (APIClient.request_of (config_with_max_text 5)
                                    (u "printer is broken"))) None).
Proof.
  assert (H0 : 0 <= MAX_TEXT_LENGTH (config_with_max_text 5)) by (simpl; lia).
  assert (H1 : len (u "printer is broken") > MAX_TEXT_LENGTH (config_with_max_text 5))
    by reflexivity.
  split; [exact H0|]. split; [exact H1|]. split.
  - exact (proj1 (classify_message_truncates (config_with_max_text 5) echo_session
                    (u "printer is broken") H0) H1).
  - exact (proj1 (proj2 (proj2 (proj2 (proj2
             (classify_message_truncates (config_with_max_text 5) echo_session
                (u "printer is broken") H0)))))
             {| APIClient.status := 200;
                APIClient.text := Return [];
                APIClient.json_body :=
                  Return (APIClient.body (APIClient.request_of (config_with_max_text 5)
                                            (u "printer is broken"))) |}
             [] (APIClient.body (APIClient.request_of (config_with_max_text 5)
                                   (u "printer is broken")))
             eq_refl eq_refl eq_refl eq_refl).
Defined.

Lemma absent_fields_defaulted_witness :
  payload_shape mapping_payload = true
  /\ exists reply,
       snd (process_api_response no_repr (successful mapping_payload))
       = Return (JStr reply).
Proof.
  split; [reflexivity|].
  exact (proj1 (absent_fields_defaulted no_repr (successful mapping_payload)
                  mapping_payload eq_refl eq_refl eq_refl)).
Defined.

Lemma normalized_values_by_shape_witness :
  exists records,
    normalize_attributes (JDict mapping_payload)
    = Return (JDict (Py.store (u "attributes") (JList records) mapping_payload))
    /\ values_never_null
         (JDict (Py.store (u "attributes") (JList records) mapping_payload)).
Proof.
  destruct (proj1 (normalized_values_by_shape mapping_payload)
              [(u "serial_number", JStr (u "ABC123")); (u "equipment_type", JNull)]
              eq_refl)
    as (records & Hrun & Hnever & _).
  exists records. split; [exact Hrun | exact Hnever].
Defined.

Lemma process_api_response_frame_witness :
  exists d',
    data (fst (process_api_response no_repr (successful mapping_payload))) = JDict d'
    /\ map fst d' = map fst mapping_payload
    /\ forall k, k <> u "attributes" -> Py.lookup k d' = Py.lookup k mapping_payload.
Proof.
  exact (proj1 (proj2 (proj2 (process_api_response_frame no_repr
                                (successful mapping_payload))))
           mapping_payload eq_refl).
Defined.

(** * Further properties *)

(** ** The shape of a run of the retry loop *)

Module TraceFacts.

Section Shape.

Variable py_repr : json -> pystr.
Variable w : collaborators.
Variable config : Config.
Variable text : pystr.

Lemma try_block_outcome (attempt : Z) :
  (exists reply,
     attempt_delivers py_repr w text attempt reply
     /\ forall log,
          try_block py_repr w text attempt log
          = ((log ++ [Called text]) ++ [Replied reply], Return tt))
  \/ (attempt_faults py_repr w text attempt
      /\ exists f, forall log,
           try_block py_repr w text attempt log = (log ++ [Called text], Raise f)).
Proof.
  unfold try_block, attempt_delivers, attempt_faults, formatted.
  destruct (classify w attempt text) as [e|response].
  - right. split; [now left|]. eauto.
  - destruct (snd (process_api_response py_repr response)) as [e|reply].
    + right. split; [now left|]. eauto.
    + destruct (reply_to w attempt reply) as [e|[]] eqn:Hr.
      * right. split; [right; eauto|]. eauto.
      * left. eauto.
Qed.

Lemma faults_not_delivers (attempt : Z) (reply : json) :
  attempt_faults py_repr w text attempt ->
  attempt_delivers py_repr w text attempt reply -> False.
Proof.
  intros [Hn | (r & e & Hf & He)] [Hs Hd].
  - congruence.
  - rewrite Hs in Hf. injection Hf as <-. congruence.
Qed.

Lemma delivers_unique (attempt : Z) (r r' : json) :
  attempt_delivers py_repr w text attempt r ->
  attempt_delivers py_repr w text attempt r' -> r = r'.
Proof. intros [H _] [H' _]. congruence. Qed.

Lemma failed_attempts_snoc (k : nat) (delay : Z) :
  failed_attempts (S k) text delay
  = [Called text; Slept delay] ++ failed_attempts k text delay.
Proof. reflexivity. Qed.

(** The loop over the attempts [k], ..., [k + m - 1], where [k + m] is the
    number of attempts: it stops at the first attempt that delivers, or
    runs through all of them and then delivers the apology, or fails to. *)
Lemma attempts_shape (N : nat) :
  MAX_RETRIES config = Z.of_nat N ->
  forall m k log,
    (k + m = N)%nat ->
    let run := attempts py_repr w config text (map Z.of_nat (seq k m)) log in
    (m = 0%nat /\ run = (log, Return tt))
    \/ (exists j reply,
          (j < m)%nat
          /\ (forall i, (k <= i < k + j)%nat ->
                attempt_faults py_repr w text (Z.of_nat i))
          /\ attempt_delivers py_repr w text (Z.of_nat (k + j)) reply
          /\ run = (log ++ failed_attempts j text (RETRY_DELAY config)
                        ++ [Called text; Replied reply], Return tt))
    \/ ((0 < m)%nat
        /\ (forall i, (k <= i < N)%nat ->
              attempt_faults py_repr w text (Z.of_nat i))
        /\ ((reply_apology w (Z.of_nat N - 1) = Return tt
             /\ run = (log ++ failed_attempts (m - 1) text (RETRY_DELAY config)
                           ++ [Called text; Replied (JStr exhausted_reply)],
                       Return tt))
            \/ exists e,
                 reply_apology w (Z.of_nat N - 1) = Raise e
                 /\ run = (log ++ failed_attempts (m - 1) text (RETRY_DELAY config)
                               ++ [Called text], Raise e))).
Proof.
  intros HN. induction m as [|m IH]; intros k log Hk run; subst run.
  - left. split; reflexivity.
  - right. cbn [seq map attempts].
    destruct (try_block_outcome (Z.of_nat k)) as [(reply & Hd & Hrun) | (Hf & f & Hrun)];
      rewrite Hrun.
    + left. exists 0%nat, reply. split; [lia|]. split; [|split].
      * intros i Hi. lia.
      * now rewrite Nat.add_0_r.
      * simpl. now rewrite <- app_assoc.
    + destruct (Z.of_nat k =? MAX_RETRIES config - 1) eqn:Elast.
      * apply Z.eqb_eq in Elast. assert (m = 0%nat) by lia. subst m.
        right. split; [lia|]. split.
        { intros i Hi. assert (i = k) by lia. now subst. }
        replace (Z.of_nat N - 1) with (Z.of_nat k) by lia.
        destruct (reply_apology w (Z.of_nat k)) as [e|[]] eqn:Ha.
        -- right. exists e. split; [reflexivity|]. reflexivity.
        -- left. split; [reflexivity|]. simpl. now rewrite <- app_assoc.
      * apply Z.eqb_neq in Elast.
        specialize (IH (S k) ((log ++ [Called text]) ++ [Slept (RETRY_DELAY config)])
                      ltac:(lia)).
        cbv zeta in IH.
        destruct IH as [[Hm _] | [(j & reply & Hj & Hbefore & Hd & ->)
                                 | (Hm & Hall & Hend)]].
        -- lia.
        -- left. exists (S j), reply. split; [lia|]. split; [|split].
           ++ intros i Hi. destruct (Nat.eq_dec i k) as [->|Hne]; [exact Hf|].
              apply Hbefore. lia.
           ++ replace (k + S j)%nat with (S k + j)%nat by lia. exact Hd.
           ++ simpl. now rewrite <- !app_assoc.
        -- right. split; [lia|]. split.
           { intros i Hi. destruct (Nat.eq_dec i k) as [->|Hne]; [exact Hf|].
             apply Hall. lia. }
           replace (S m - 1)%nat with (S (m - 1)) by lia.
           destruct Hend as [[Ha ->] | (e & Ha & ->)].
           ++ left. split; [exact Ha|]. simpl. now rewrite <- !app_assoc.
           ++ right. exists e. split; [exact Ha|]. simpl. now rewrite <- !app_assoc.
Qed.

End Shape.

End TraceFacts.

Module RunFacts.

Section Run.

Variable py_repr : json -> pystr.
Variable w : collaborators.
Variable config : Config.
Variable text : pystr.

(** Every run of [handle_message] has one of four shapes. *)
Lemma handle_message_shape :
  let run := handle_message py_repr w config text in
  let n := MAX_RETRIES config in
  let pause := RETRY_DELAY config in
  (n <= 0 /\ run = ([], Return tt))
  \/ (exists k reply,
        Z.of_nat k < n
        /\ (forall i, 0 <= i < Z.of_nat k -> attempt_faults py_repr w text i)
        /\ attempt_delivers py_repr w text (Z.of_nat k) reply
        /\ run = (failed_attempts k text pause ++ [Called text; Replied reply],
                  Return tt))
  \/ (1 <= n
      /\ (forall i, 0 <= i < n -> attempt_faults py_repr w text i)
      /\ ((reply_apology w (n - 1) = Return tt
           /\ run = (failed_attempts (Z.to_nat (n - 1)) text pause
                       ++ [Called text; Replied (JStr exhausted_reply)], Return tt))
          \/ exists e,
               reply_apology w (n - 1) = Raise e
               /\ run = (failed_attempts (Z.to_nat (n - 1)) text pause
                           ++ [Called text], Raise e))).
Proof.
  intros run n pause. subst run n pause. unfold handle_message, Py.range.
  destruct (Z_le_gt_dec (MAX_RETRIES config) 0) as [Hle|Hgt].
  - left. split; [exact Hle|].
    replace (Z.to_nat (MAX_RETRIES config)) with 0%nat by lia. reflexivity.
  - right.
    assert (HN : MAX_RETRIES config = Z.of_nat (Z.to_nat (MAX_RETRIES config))) by lia.
    destruct (TraceFacts.attempts_shape py_repr w config text
                (Z.to_nat (MAX_RETRIES config)) HN
                (Z.to_nat (MAX_RETRIES config)) 0%nat [] eq_refl)
      as [[Hm _] | [(j & reply & Hj & Hbefore & Hd & Hrun)
                   | (Hm & Hall & Hend)]].
    + lia.
    + left. exists j, reply. split; [lia|]. split; [|split].
      * intros i Hi. replace i with (Z.of_nat (Z.to_nat i)) by lia.
        apply Hbefore. lia.
      * exact Hd.
      * exact Hrun.
    + right. split; [lia|]. split.
      * intros i Hi. replace i with (Z.of_nat (Z.to_nat i)) by lia.
        apply Hall. lia.
      * rewrite <- HN in Hend.
        replace (Z.to_nat (MAX_RETRIES config - 1))
          with (Z.to_nat (MAX_RETRIES config) - 1)%nat by lia.
        exact Hend.
Qed.

Lemma calls_failed_attempts (k : nat) (delay : Z) :
  calls (failed_attempts k text delay) = repeat (Called text) k.
Proof. induction k as [|k IH]; simpl; [reflexivity | now rewrite <- IH]. Qed.

Lemma sleeps_failed_attempts (k : nat) (delay : Z) :
  sleeps (failed_attempts k text delay) = repeat (Slept delay) k.
Proof. induction k as [|k IH]; simpl; [reflexivity | now rewrite <- IH]. Qed.

Lemma replies_failed_attempts (k : nat) (delay : Z) :
  replies (failed_attempts k text delay) = [].
Proof. induction k as [|k IH]; simpl; [reflexivity | exact IH]. Qed.

Lemma stops_at_first_delivery (k : nat) (reply : json) :
  Z.of_nat k < MAX_RETRIES config ->
  (forall i, 0 <= i < Z.of_nat k -> attempt_faults py_repr w text i) ->
  attempt_delivers py_repr w text (Z.of_nat k) reply ->
  handle_message py_repr w config text
  = (failed_attempts k text (RETRY_DELAY config) ++ [Called text; Replied reply],
     Return tt).
Proof.
  intros Hk Hbefore Hd.
  destruct handle_message_shape
    as [[Hn _] | [(k' & reply' & Hk' & Hbefore' & Hd' & Hrun) | (_ & Hall & _)]].
  - lia.
  - destruct (Nat.lt_trichotomy k' k) as [Hlt | [-> | Hgt]].
    + exfalso.
      apply (TraceFacts.faults_not_delivers py_repr w text (Z.of_nat k') reply');
        [apply Hbefore; lia | exact Hd'].
    + rewrite (TraceFacts.delivers_unique py_repr w text _ _ _ Hd Hd').
      exact Hrun.
    + exfalso.
      apply (TraceFacts.faults_not_delivers py_repr w text (Z.of_nat k) reply);
        [apply Hbefore'; lia | exact Hd].
  - exfalso.
    apply (TraceFacts.faults_not_delivers py_repr w text (Z.of_nat k) reply);
      [apply Hall; lia | exact Hd].
Qed.

Lemma exhausts :
  1 <= MAX_RETRIES config ->
  (forall i, 0 <= i < MAX_RETRIES config -> attempt_faults py_repr w text i) ->
  reply_apology w (MAX_RETRIES config - 1) = Return tt ->
  handle_message py_repr w config text
  = (failed_attempts (Z.to_nat (MAX_RETRIES config - 1)) text (RETRY_DELAY config)
       ++ [Called text; Replied (JStr exhausted_reply)], Return tt).
Proof.
  intros Hn Hall Ha.
  destruct handle_message_shape
    as [[Hn' _] | [(k & reply & Hk & _ & Hd & _)
                  | (_ & _ & [[_ Hrun] | (e & He & _)])]].
  - lia.
  - exfalso.
    apply (TraceFacts.faults_not_delivers py_repr w text (Z.of_nat k) reply);
      [apply Hall; lia | exact Hd].
  - exact Hrun.
  - congruence.
Qed.

End Run.

(** In a log whose only reply is its last event, nothing follows a reply. *)
Lemma reply_is_last (l pre post : list event) (r0 r : json) :
  replies l = [] ->
  l ++ [Replied r0] = pre ++ Replied r :: post ->
  post = [].
Proof.
  intros Hnone Heq.
  destruct post as [|x post'] using rev_ind; [reflexivity|].
  exfalso. clear IHpost'.
  change (pre ++ Replied r :: post' ++ [x])
    with (pre ++ (Replied r :: post') ++ [x]) in Heq.
  rewrite app_assoc in Heq.
  apply app_inj_tail in Heq as [Hl _].
  rewrite Hl in Hnone. unfold replies in Hnone.
  rewrite filter_app in Hnone. simpl in Hnone.
  destruct (filter is_reply pre); discriminate.
Qed.

Lemma no_reply_no_split (l pre post : list event) (r : json) :
  replies l = [] -> l = pre ++ Replied r :: post -> False.
Proof.
  intros Hnone ->. unfold replies in Hnone.
  rewrite filter_app in Hnone. simpl in Hnone.
  destruct (filter is_reply pre); discriminate.
Qed.

End RunFacts.

(** X1.  When the attempts [0], ..., [k - 1] leave the [try] block by an
    exception and attempt [k] (one [MAX_RETRIES] allows) delivers its
    reply, the run is: [k] times a call followed by a pause of
    [RETRY_DELAY], then a call and the reply.  So [k + 1] calls, [k]
    pauses, and nothing after the reply. *)
Theorem retry_then_success
    (py_repr : json -> pystr) (w : collaborators) (config : Config) (text : pystr)
    (k : nat) (reply : json) :
  Z.of_nat k < MAX_RETRIES config ->
  (forall i, 0 <= i < Z.of_nat k -> attempt_faults py_repr w text i) ->
  attempt_delivers py_repr w text (Z.of_nat k) reply ->
  handle_message py_repr w config text
  = (failed_attempts k text (RETRY_DELAY config) ++ [Called text; Replied reply],
     Return tt)
  /\ List.length (calls (fst (handle_message py_repr w config text))) = S k
  /\ List.length (sleeps (fst (handle_message py_repr w config text))) = k.
Proof.
  intros Hk Hbefore Hd.
  assert (Hrun : handle_message py_repr w config text
                 = (failed_attempts k text (RETRY_DELAY config)
                      ++ [Called text; Replied reply], Return tt)).
  { exact (RunFacts.stops_at_first_delivery py_repr w config text k reply
             Hk Hbefore Hd). }
  rewrite Hrun. split; [reflexivity|]. cbn [fst]. unfold calls, sleeps.
  rewrite !filter_app.
  fold (calls (failed_attempts k text (RETRY_DELAY config))).
  fold (sleeps (failed_attempts k text (RETRY_DELAY config))).
  rewrite RunFacts.calls_failed_attempts, RunFacts.sleeps_failed_attempts.
  rewrite !length_app, !repeat_length. simpl. lia.
Qed.

(** X2.  For any [MAX_RETRIES = n >= 1]: when every attempt leaves the
    [try] block by an exception and the apology is delivered, the run is
    [n - 1] times a call followed by a pause, then the last call and the
    apology.  So [n] calls, [n - 1] pauses, no pause after the last call,
    and one reply. *)
Theorem all_attempts_fail
    (py_repr : json -> pystr) (w : collaborators) (config : Config) (text : pystr) :
  1 <= MAX_RETRIES config ->
  (forall i, 0 <= i < MAX_RETRIES config -> attempt_faults py_repr w text i) ->
  reply_apology w (MAX_RETRIES config - 1) = Return tt ->
  handle_message py_repr w config text
  = (failed_attempts (Z.to_nat (MAX_RETRIES config - 1)) text (RETRY_DELAY config)
       ++ [Called text; Replied (JStr exhausted_reply)], Return tt)
  /\ Z.of_nat (List.length (calls (fst (handle_message py_repr w config text))))
     = MAX_RETRIES config
  /\ Z.of_nat (List.length (sleeps (fst (handle_message py_repr w config text))))
     = MAX_RETRIES config - 1.
Proof.
  intros Hn Hall Ha.
  assert (Hrun : handle_message py_repr w config text
                 = (failed_attempts (Z.to_nat (MAX_RETRIES config - 1)) text
                      (RETRY_DELAY config)
                      ++ [Called text; Replied (JStr exhausted_reply)], Return tt)).
  { exact (RunFacts.exhausts py_repr w config text Hn Hall Ha). }
  rewrite Hrun. split; [reflexivity|]. cbn [fst]. unfold calls, sleeps.
  rewrite !filter_app.
  fold (calls (failed_attempts (Z.to_nat (MAX_RETRIES config - 1)) text
                 (RETRY_DELAY config))).
  fold (sleeps (failed_attempts (Z.to_nat (MAX_RETRIES config - 1)) text
                  (RETRY_DELAY config))).
  rewrite RunFacts.calls_failed_attempts, RunFacts.sleeps_failed_attempts.
  rewrite !length_app, !repeat_length. simpl. lia.
Qed.

(** X3.  Whatever the collaborators do, a run makes at most [MAX_RETRIES]
    client calls.  When [MAX_RETRIES] is zero or negative it does nothing
    at all: the log is empty.  When [MAX_RETRIES] is at least 1 it makes
    at least one call and pauses exactly once between two consecutive
    calls: the log holds exactly one pause less than calls. *)
Theorem calls_and_pauses_bounded
    (py_repr : json -> pystr) (w : collaborators) (config : Config) (text : pystr) :
  let log := fst (handle_message py_repr w config text) in
  (List.length (calls log) <= Z.to_nat (MAX_RETRIES config))%nat
  /\ (MAX_RETRIES config <= 0 -> log = [])
  /\ (1 <= MAX_RETRIES config ->
      (1 <= List.length (calls log))%nat
      /\ List.length (calls log) = S (List.length (sleeps log)))
  /\ (log = [] \/ List.length (calls log) = S (List.length (sleeps log))).
Proof.
  intros log. subst log.
  destruct (RunFacts.handle_message_shape py_repr w config text)
    as [[Hn ->] | [(k & reply & Hk & _ & _ & ->)
                  | (Hn & _ & [[_ ->] | (e & _ & ->)])]];
    cbn [fst].
  - split; [simpl; lia|]. split; [reflexivity|]. split; [lia | now left].
  - unfold calls, sleeps. rewrite !filter_app.
    fold (calls (failed_attempts k text (RETRY_DELAY config))).
    fold (sleeps (failed_attempts k text (RETRY_DELAY config))).
    rewrite RunFacts.calls_failed_attempts, RunFacts.sleeps_failed_attempts.
    rewrite !length_app, !repeat_length. simpl.
    split; [lia|]. split; [lia|]. split; [lia | right; lia].
  - unfold calls, sleeps. rewrite !filter_app.
    fold (calls (failed_attempts (Z.to_nat (MAX_RETRIES config - 1)) text
                   (RETRY_DELAY config))).
    fold (sleeps (failed_attempts (Z.to_nat (MAX_RETRIES config - 1)) text
                    (RETRY_DELAY config))).
    rewrite RunFacts.calls_failed_attempts, RunFacts.sleeps_failed_attempts.
    rewrite !length_app, !repeat_length. simpl.
    split; [lia|]. split; [lia|]. split; [lia | right; lia].
  - unfold calls, sleeps. rewrite !filter_app.
    fold (calls (failed_attempts (Z.to_nat (MAX_RETRIES config - 1)) text
                   (RETRY_DELAY config))).
    fold (sleeps (failed_attempts (Z.to_nat (MAX_RETRIES config - 1)) text
                    (RETRY_DELAY config))).
    rewrite RunFacts.calls_failed_attempts, RunFacts.sleeps_failed_attempts.
    rewrite !length_app, !repeat_length. simpl.
    split; [lia|]. split; [lia|]. split; [lia | right; lia].
Qed.

(** X4.  A delivered reply ends the run: whatever the collaborators do,
    the log holds no call, no pause and no second reply after a reply. *)
Theorem nothing_after_reply
    (py_repr : json -> pystr) (w : collaborators) (config : Config) (text : pystr)
    (before after : list event) (reply : json) :
  fst (handle_message py_repr w config text) = before ++ Replied reply :: after ->
  after = [].
Proof.
  destruct (RunFacts.handle_message_shape py_repr w config text)
    as [[Hn ->] | [(k & reply' & _ & _ & _ & ->)
                  | (Hn & _ & [[_ ->] | (e & _ & ->)])]];
    cbn [fst]; intros Hlog.
  - destruct before; discriminate.
  - change [Called text; Replied reply'] with ([Called text] ++ [Replied reply']) in Hlog.
    rewrite app_assoc in Hlog.
    apply (RunFacts.reply_is_last _ _ _ _ _) in Hlog; [exact Hlog|].
    unfold replies. rewrite filter_app.
    fold (replies (failed_attempts k text (RETRY_DELAY config))).
    now rewrite RunFacts.replies_failed_attempts.
  - change [Called text; Replied (JStr exhausted_reply)]
      with ([Called text] ++ [Replied (JStr exhausted_reply)]) in Hlog.
    rewrite app_assoc in Hlog.
    apply (RunFacts.reply_is_last _ _ _ _ _) in Hlog; [exact Hlog|].
    unfold replies. rewrite filter_app.
    fold (replies (failed_attempts (Z.to_nat (MAX_RETRIES config - 1)) text
                     (RETRY_DELAY config))).
    now rewrite RunFacts.replies_failed_attempts.
  - exfalso. apply (RunFacts.no_reply_no_split _ _ _ _) in Hlog; [exact Hlog|].
    unfold replies. rewrite filter_app.
    fold (replies (failed_attempts (Z.to_nat (MAX_RETRIES config - 1)) text
                     (RETRY_DELAY config))).
    now rewrite RunFacts.replies_failed_attempts.
Qed.

(** X5.  The only exception that leaves [handle_message] is the one the
    delivery of the apology raises: when a run ends by an exception [e],
    every attempt left the [try] block by an exception, [MAX_RETRIES]
    calls were made, the delivery of the apology on the last attempt
    raised [e], and the user got no reply at all. *)
Theorem only_apology_delivery_escapes
    (py_repr : json -> pystr) (w : collaborators) (config : Config) (text : pystr)
    (e : raised) :
  snd (handle_message py_repr w config text) = Raise e ->
  1 <= MAX_RETRIES config
  /\ reply_apology w (MAX_RETRIES config - 1) = Raise e
  /\ (forall i, 0 <= i < MAX_RETRIES config -> attempt_faults py_repr w text i)
  /\ replies (fst (handle_message py_repr w config text)) = []
  /\ Z.of_nat (List.length (calls (fst (handle_message py_repr w config text))))
     = MAX_RETRIES config.
Proof.
  destruct (RunFacts.handle_message_shape py_repr w config text)
    as [[Hn ->] | [(k & reply' & _ & _ & _ & ->)
                  | (Hn & Hall & [[_ ->] | (e' & He & ->)])]];
    cbn [fst snd]; intros Hend; try discriminate.
  injection Hend as ->.
  split; [exact Hn|]. split; [exact He|]. split; [exact Hall|].
  unfold replies, calls. rewrite !filter_app.
  fold (replies (failed_attempts (Z.to_nat (MAX_RETRIES config - 1)) text
                   (RETRY_DELAY config))).
  fold (calls (failed_attempts (Z.to_nat (MAX_RETRIES config - 1)) text
                 (RETRY_DELAY config))).
  rewrite RunFacts.replies_failed_attempts, RunFacts.calls_failed_attempts.
  split; [reflexivity|].
  rewrite length_app, repeat_length. simpl. lia.
Qed.

(** ** The texts of the replies *)

Module TextFacts.

Section Text.

Variable py_repr : json -> pystr.

Lemma for_each_appends {A} (f : pystr -> A -> result exn pystr) (g : A -> pystr)
    (l : list A) :
  (forall reply x, In x l -> f reply x = Return (reply ++ g x)) ->
  forall reply, for_each f l reply = Return (reply ++ List.concat (map g l)).
Proof.
  induction l as [|x l IH]; intros Hf reply; simpl.
  - now rewrite app_nil_r.
  - rewrite (Hf reply x (or_introl eq_refl)). simpl.
    rewrite IH by (intros r y Hy; apply Hf; now right).
    now rewrite <- app_assoc.
Qed.

Lemma attr_label_attribute (names : list (pystr * pystr)) (n : pystr) (v : json) :
  MessageFormatter.attr_label names (attribute n v) = Return (JStr (label names n)).
Proof.
  unfold MessageFormatter.attr_label, attribute, Py.getitem, bind.
  change (Py.lookup (u "name") [(u "name", JStr n); (u "value", v)])
    with (Some (JStr n)).
  unfold Py.table_get, label. now destruct (Py.table_lookup n names).
Qed.

Lemma success_line_attribute (reply n : pystr) (v : json) :
  MessageFormatter.success_line py_repr reply (attribute n v)
  = Return (reply ++ u "🔹 " ++ label MessageFormatter.success_names n
                  ++ u ": " ++ MessageFormatter.fstr py_repr v ++ nl).
Proof.
  unfold MessageFormatter.success_line. rewrite attr_label_attribute.
  unfold bind, attribute, Py.getitem.
  change (Py.lookup (u "value") [(u "name", JStr n); (u "value", v)])
    with (Some v).
  reflexivity.
Qed.

Lemma recognized_line_attribute (reply n : pystr) (v : json) :
  MessageFormatter.recognized_line py_repr reply (attribute n v)
  = Return (reply ++ u "- " ++ label MessageFormatter.missing_names n
                  ++ u ": " ++ MessageFormatter.fstr py_repr v ++ nl).
Proof.
  unfold MessageFormatter.recognized_line. rewrite attr_label_attribute.
  unfold bind, attribute, Py.getitem.
  change (Py.lookup (u "value") [(u "name", JStr n); (u "value", v)])
    with (Some v).
  reflexivity.
Qed.

Lemma missing_line_string (reply m : pystr) :
  MessageFormatter.missing_line py_repr reply (JStr m)
  = Return (reply ++ u "- " ++ label MessageFormatter.missing_names m ++ nl).
Proof.
  unfold MessageFormatter.missing_line, Py.table_get, label, bind.
  now destruct (Py.table_lookup m MessageFormatter.missing_names).
Qed.

Lemma join_strings (sep : pystr) (ks : list pystr) :
  Py.join sep (strings ks) = Return (PyStr.join sep ks).
Proof.
  unfold Py.join, strings, Py.iter, bind.
  assert (H : mapM Py.as_str (map JStr ks) = Return (E := exn) ks).
  { induction ks as [|k ks IH]; simpl; [reflexivity|]. now rewrite IH. }
  now rewrite H.
Qed.

Lemma success_lines (pairs : list (pystr * json)) (reply : pystr) :
  for_each (MessageFormatter.success_line py_repr)
    (map (fun p => attribute (fst p) (snd p)) pairs) reply
  = Return (reply ++ success_body py_repr pairs).
Proof.
  unfold success_body.
  rewrite (for_each_appends (MessageFormatter.success_line py_repr)
             (fun a => match a with
                       | JDict [(_, JStr n); (_, v)] =>
                           u "🔹 " ++ label MessageFormatter.success_names n
                           ++ u ": " ++ MessageFormatter.fstr py_repr v ++ nl
                       | _ => []
                       end)).
  - now rewrite map_map.
  - intros r x Hx. apply in_map_iff in Hx as [[n v] [<- _]].
    apply success_line_attribute.
Qed.

Lemma recognized_lines (pairs : list (pystr * json)) (reply : pystr) :
  for_each (MessageFormatter.recognized_line py_repr)
    (map (fun p => attribute (fst p) (snd p)) pairs) reply
  = Return (reply
            ++ List.concat (map (fun p => u "- " ++ label MessageFormatter.missing_names (fst p)
                                       ++ u ": " ++ MessageFormatter.fstr py_repr (snd p)
                                       ++ nl) pairs)).
Proof.
  rewrite (for_each_appends (MessageFormatter.recognized_line py_repr)
             (fun a => match a with
                       | JDict [(_, JStr n); (_, v)] =>
                           u "- " ++ label MessageFormatter.missing_names n
                           ++ u ": " ++ MessageFormatter.fstr py_repr v ++ nl
                       | _ => []
                       end)).
  - now rewrite map_map.
  - intros r x Hx. apply in_map_iff in Hx as [[n v] [<- _]].
    apply recognized_line_attribute.
Qed.

Lemma missing_lines (ms : list pystr) (reply : pystr) :
  for_each (MessageFormatter.missing_line py_repr) (map JStr ms) reply
  = Return (reply
            ++ List.concat (map (fun m => u "- " ++ label MessageFormatter.missing_names m ++ nl)
                           ms)).
Proof.
  rewrite (for_each_appends (MessageFormatter.missing_line py_repr)
             (fun a => match a with
                       | JStr m => u "- " ++ label MessageFormatter.missing_names m ++ nl
                       | _ => []
                       end)).
  - now rewrite map_map.
  - intros r x Hx. apply in_map_iff in Hx as [m [<- _]].
    apply missing_line_string.
Qed.

End Text.

End TextFacts.

(** X6.  The text of a classified request: the header, one line
    [🔹 <label>: <value>] per attribute record in the order of the list,
    where the label is the entry of the name in the table or the name
    itself, and, only when there is a keyword, the keywords joined by a
    comma and a space on a last line. *)
Theorem classified_text
    (py_repr : json -> pystr) (pairs : list (pystr * json)) (ks : list pystr) :
  MessageFormatter.format_successful_classification py_repr
    (attributes_of pairs) (strings ks)
  = Return (success_header ++ success_body py_repr pairs ++ keywords_line ks).
Proof.
  unfold MessageFormatter.format_successful_classification, attributes_of.
  unfold Py.iter at 1. unfold bind at 1.
  rewrite TextFacts.success_lines. unfold bind at 1.
  destruct ks as [|k ks].
  - simpl. unfold success_header. now rewrite app_nil_r.
  - change (Py.truthy (strings (k :: ks))) with true. cbv iota.
    rewrite TextFacts.join_strings. unfold bind, keywords_line, success_header.
    now rewrite <- !app_assoc.
Qed.

(** X7.  The text that asks for more information: the header; only when
    there is a recognized attribute, the block [✓ Уже распознано:] with one
    line per record and an empty line; then, always, the block
    [❗️ Пожалуйста, уточните:] with one line [- <label>] per missing
    attribute, in the order of the list. *)
Theorem missing_info_text
    (py_repr : json -> pystr) (ms : list pystr) (pairs : list (pystr * json)) :
  MessageFormatter.format_missing_info py_repr (strings ms) (attributes_of pairs)
  = Return (missing_header ++ recognized_block py_repr pairs ++ clarify_block ms).
Proof.
  unfold MessageFormatter.format_missing_info, attributes_of, strings.
  destruct pairs as [|p pairs].
  - change (Py.truthy (JList (map (fun p => attribute (fst p) (snd p)) []))) with false.
    cbv iota. unfold bind at 1. unfold Py.iter, bind.
    rewrite TextFacts.missing_lines.
    unfold missing_header, recognized_block, clarify_block.
    rewrite app_nil_l. now rewrite <- ?app_assoc.
  - change (Py.truthy (JList (map (fun p => attribute (fst p) (snd p)) (p :: pairs))))
      with true.
    cbv iota. unfold Py.iter at 1. unfold bind at 2.
    rewrite TextFacts.recognized_lines. unfold bind at 2. unfold bind at 1.
    unfold Py.iter, bind. rewrite TextFacts.missing_lines.
    unfold missing_header, recognized_block, clarify_block.
    now rewrite <- ?app_assoc.
Qed.

(** ** More on process_api_response *)

Module ProcessFacts.

Section Process.

Variable py_repr : json -> pystr.

Lemma no_answer_falsy (d : dict) :
  no_answer d -> Py.truthy (or_default (Py.lookup (u "answer") d) JNull) = false.
Proof.
  intros H. destruct (Py.lookup (u "answer") d) as [a|] eqn:E.
  - exact (H a E).
  - reflexivity.
Qed.

Lemma falsy_no_answer (d : dict) :
  Py.truthy (or_default (Py.lookup (u "answer") d) JNull) = false -> no_answer d.
Proof. intros H a Ha. now rewrite Ha in H. Qed.

(** What the call does to the response object. *)
Lemma process_cases (response : APIResponse) :
  fst (process_api_response py_repr response) = response
  \/ exists d m,
       success response = true
       /\ data response = JDict d
       /\ no_answer d
       /\ Py.lookup (u "attributes") d = Some (JDict m)
       /\ fst (process_api_response py_repr response)
          = with_data response
              (JDict (Py.store (u "attributes")
                        (JList (map (fun e => attribute (fst e) (snd e))
                                    (filter not_none_entry m))) d)).
Proof.
  destruct (success response) eqn:Hs.
  2:{ left. unfold process_api_response. now rewrite Hs. }
  destruct (data response) as [| | | | | |d] eqn:Hd;
    try (left; unfold process_api_response; rewrite Hs, Hd; reflexivity).
  destruct (Py.truthy (or_default (Py.lookup (u "answer") d) JNull)) eqn:Ha.
  - left. unfold process_api_response. rewrite Hs, Hd. unfold Py.get.
    cbv beta iota delta [negb].
    destruct (Py.lookup (u "answer") d) as [a|]; cbn [or_default] in Ha.
    + now rewrite Ha.
    + discriminate.
  - apply falsy_no_answer in Ha.
    destruct (Py.lookup (u "attributes") d) as [[| | | | | |m]|] eqn:Hv.
    7:{ right. exists d, m. repeat split; auto.
        now rewrite (ResponseFacts.process_normalizes py_repr response d _ Hs Hd Ha
                       (ResponseFacts.normalize_mapping d m Hv)). }
    all: left;
      rewrite (ResponseFacts.process_normalizes py_repr response d (JDict d) Hs Hd Ha)
        by (apply ResponseFacts.normalize_other; intros m; rewrite Hv; discriminate);
      destruct response; simpl in *; now subst.
Qed.

End Process.

End ProcessFacts.

(** X8.  A successful response whose payload is not a dictionary (a JSON
    array, string or number) makes [process_api_response] raise
    [AttributeError] at [data.get('answer')], before anything is changed. *)
Theorem non_object_payload_raises
    (py_repr : json -> pystr) (response : APIResponse) :
  success response = true ->
  Py.isinstance_dict (data response) = false ->
  process_api_response py_repr response = (response, Raise AttributeError).
Proof.
  intros Hs Hd. unfold process_api_response. rewrite Hs.
  destruct (data response); try reflexivity. discriminate.
Qed.

(** X9.  The reply depends on the payload only through the five keys the
    code reads: two successful responses whose payloads agree on [answer],
    [valid], [attributes], [missingAttributes] and [keywords] get the same
    reply, or raise the same exception, whatever other keys they hold and
    in whatever order. *)
Theorem unrecognized_keys_ignored
    (py_repr : json -> pystr) (response response' : APIResponse) (d d' : dict) :
  success response = true -> data response = JDict d ->
  success response' = true -> data response' = JDict d' ->
  (forall k, In k recognized_keys -> Py.lookup k d = Py.lookup k d') ->
  snd (process_api_response py_repr response)
  = snd (process_api_response py_repr response').
Proof.
  intros Hs Hd Hs' Hd' Hsame.
  rewrite (ShapeFacts.process_by_fields py_repr response d Hs Hd).
  rewrite (ShapeFacts.process_by_fields py_repr response' d' Hs' Hd').
  rewrite (Hsame (u "answer") (or_introl eq_refl)).
  rewrite (Hsame (u "valid") (or_intror (or_introl eq_refl))).
  rewrite (Hsame (u "attributes") (or_intror (or_intror (or_introl eq_refl)))).
  rewrite (Hsame (u "missingAttributes")
             (or_intror (or_intror (or_intror (or_introl eq_refl))))).
  rewrite (Hsame (u "keywords")
             (or_intror (or_intror (or_intror (or_intror (or_introl eq_refl)))))).
  reflexivity.
Qed.

(** X10.  An [answer] that is present but empty ([""], [null], [0], [[]],
    [false]) counts as no answer at all: two successful responses without
    a usable answer that agree on the four other keys get the same
    reply. *)
Theorem empty_answer_ignored
    (py_repr : json -> pystr) (response response' : APIResponse) (d d' : dict) :
  success response = true -> data response = JDict d ->
  success response' = true -> data response' = JDict d' ->
  no_answer d -> no_answer d' ->
  Py.lookup (u "valid") d = Py.lookup (u "valid") d' ->
  Py.lookup (u "attributes") d = Py.lookup (u "attributes") d' ->
  Py.lookup (u "missingAttributes") d = Py.lookup (u "missingAttributes") d' ->
  Py.lookup (u "keywords") d = Py.lookup (u "keywords") d' ->
  snd (process_api_response py_repr response)
  = snd (process_api_response py_repr response').
Proof.
  intros Hs Hd Hs' Hd' Ha Ha' Hv Hat Hm Hk.
  rewrite (ShapeFacts.process_by_fields py_repr response d Hs Hd).
  rewrite (ShapeFacts.process_by_fields py_repr response' d' Hs' Hd').
  unfold reply_of_fields.
  rewrite (ProcessFacts.no_answer_falsy d Ha), (ProcessFacts.no_answer_falsy d' Ha').
  now rewrite Hv, Hat, Hm, Hk.
Qed.

(** X11.  Processing is idempotent on the response object: a second call
    on the object the first call left behind returns (or raises) the same
    and changes nothing more. *)
Theorem process_api_response_idempotent
    (py_repr : json -> pystr) (response : APIResponse) :
  process_api_response py_repr (fst (process_api_response py_repr response))
  = process_api_response py_repr response.
Proof.
  destruct (ProcessFacts.process_cases py_repr response)
    as [-> | (d & m & Hs & Hd & Ha & Hm & Hfst)]; [reflexivity|].
  rewrite Hfst.
  set (records := JList (map (fun e => attribute (fst e) (snd e))
                             (filter not_none_entry m))).
  pose proof (ResponseFacts.process_normalizes py_repr response d _ Hs Hd Ha
                (ResponseFacts.normalize_mapping d m Hm)) as Hfirst.
  fold records in Hfirst. rewrite Hfirst.
  assert (Ha' : no_answer (Py.store (u "attributes") records d)).
  { intros a Hl. rewrite DictFacts.lookup_store_other in Hl by discriminate.
    exact (Ha a Hl). }
  assert (Hn : normalize_attributes (JDict (Py.store (u "attributes") records d))
               = Return (JDict (Py.store (u "attributes") records d))).
  { apply ResponseFacts.normalize_other. intros m'.
    rewrite DictFacts.lookup_store_same. discriminate. }
  rewrite (ResponseFacts.process_normalizes py_repr
             (with_data response (JDict (Py.store (u "attributes") records d)))
             (Py.store (u "attributes") records d) _ Hs eq_refl Ha' Hn).
  reflexivity.
Qed.

(** X12.  A status 200 whose JSON body is empty or false ([null], [{}],
    [[]], [""], [0], [false]) is stored as the empty dictionary, and the
    user is asked for more information with nothing listed: the header and
    the bare [❗️ Пожалуйста, уточните:] line. *)
Theorem empty_body_reply (py_repr : json -> pystr) (payload : json) :
  Py.truthy payload = false ->
  data (APIResponse_init true payload None) = JDict []
  /\ process_api_response py_repr (APIResponse_init true payload None)
     = (APIResponse_init true payload None,
        Return (JStr (missing_header ++ clarify_block []))).
Proof.
  intros Hf. unfold APIResponse_init, Py.or_. rewrite Hf.
  split; [reflexivity|].
  vm_compute. reflexivity.
Qed.

Module ErrorFacts.

Lemma for_each_raises {A} (f : pystr -> A -> result exn pystr) (P : A -> Prop)
    (pre : list A) (bad : A) (rest : list A) (err : exn) :
  (forall reply x, P x -> exists reply', f reply x = Return reply') ->
  Forall P pre ->
  (forall reply, f reply bad = Raise err) ->
  forall reply, for_each f (pre ++ bad :: rest) reply = Raise err.
Proof.
  intros Hf Hpre Hbad. induction Hpre as [|x pre Hx _ IH]; intros reply; simpl.
  - now rewrite Hbad.
  - destruct (Hf reply x Hx) as [reply' ->]. simpl. apply IH.
Qed.

Lemma mapM_as_str_raises (l : list json) (k : json) :
  In k l -> is_str k = false -> mapM Py.as_str l = Raise TypeError.
Proof.
  induction l as [|x l IH]; intros Hin Hk; [contradiction|].
  simpl. destruct Hin as [-> | Hin].
  - destruct k; try reflexivity. discriminate.
  - destruct x; try reflexivity. simpl. now rewrite (IH Hin Hk).
Qed.

Lemma truthy_middle (pre : list json) (bad : json) (rest : list json) :
  Py.truthy (JList (pre ++ bad :: rest)) = true.
Proof. now destruct pre. Qed.

End ErrorFacts.

(** X13.  A record of the attribute list that has no [name] makes both
    formatters raise [KeyError('name')], and one that has a string name
    but no [value] makes them raise [KeyError('value')], when the records
    before it are well formed; no text is returned for the records that
    were. *)
Theorem malformed_record_raises
    (py_repr : json -> pystr) (pre rest : list json) (e : dict)
    (other missing : json) :
  Forall renderable pre ->
  (Py.lookup (u "name") e = None ->
     MessageFormatter.format_successful_classification py_repr
       (JList (pre ++ JDict e :: rest)) other = Raise (KeyError (u "name"))
     /\ MessageFormatter.format_missing_info py_repr
          missing (JList (pre ++ JDict e :: rest)) = Raise (KeyError (u "name")))
  /\ (forall n, Py.lookup (u "name") e = Some (JStr n) ->
        Py.lookup (u "value") e = None ->
        MessageFormatter.format_successful_classification py_repr
          (JList (pre ++ JDict e :: rest)) other = Raise (KeyError (u "value"))
        /\ MessageFormatter.format_missing_info py_repr
             missing (JList (pre ++ JDict e :: rest)) = Raise (KeyError (u "value"))).
Proof.
  intros Hpre. split.
  - intros Hn. split.
    + unfold MessageFormatter.format_successful_classification.
      unfold Py.iter at 1. unfold bind at 1.
      rewrite (ErrorFacts.for_each_raises (MessageFormatter.success_line py_repr)
                 renderable pre (JDict e) rest (KeyError (u "name"))).
      * reflexivity.
      * intros reply x Hx. now apply FormatterFacts.success_line_returns.
      * exact Hpre.
      * intros reply. unfold MessageFormatter.success_line,
          MessageFormatter.attr_label, Py.getitem, bind. now rewrite Hn.
    + unfold MessageFormatter.format_missing_info.
      rewrite ErrorFacts.truthy_middle.
      unfold Py.iter at 1. unfold bind at 2.
      rewrite (ErrorFacts.for_each_raises (MessageFormatter.recognized_line py_repr)
                 renderable pre (JDict e) rest (KeyError (u "name"))).
      * reflexivity.
      * intros reply x Hx. now apply FormatterFacts.recognized_line_returns.
      * exact Hpre.
      * intros reply. unfold MessageFormatter.recognized_line,
          MessageFormatter.attr_label, Py.getitem, bind. now rewrite Hn.
  - intros n Hn Hv. split.
    + unfold MessageFormatter.format_successful_classification.
      unfold Py.iter at 1. unfold bind at 1.
      rewrite (ErrorFacts.for_each_raises (MessageFormatter.success_line py_repr)
                 renderable pre (JDict e) rest (KeyError (u "value"))).
      * reflexivity.
      * intros reply x Hx. now apply FormatterFacts.success_line_returns.
      * exact Hpre.
      * intros reply. unfold MessageFormatter.success_line,
          MessageFormatter.attr_label, Py.getitem, bind. rewrite Hn.
        unfold Py.table_get.
        destruct (Py.table_lookup n MessageFormatter.success_names); now rewrite Hv.
    + unfold MessageFormatter.format_missing_info.
      rewrite ErrorFacts.truthy_middle.
      unfold Py.iter at 1. unfold bind at 2.
      rewrite (ErrorFacts.for_each_raises (MessageFormatter.recognized_line py_repr)
                 renderable pre (JDict e) rest (KeyError (u "value"))).
      * reflexivity.
      * intros reply x Hx. now apply FormatterFacts.recognized_line_returns.
      * exact Hpre.
      * intros reply. unfold MessageFormatter.recognized_line,
          MessageFormatter.attr_label, Py.getitem, bind. rewrite Hn.
        unfold Py.table_get.
        destruct (Py.table_lookup n MessageFormatter.missing_names); now rewrite Hv.
Qed.

(** X14.  A keyword that is not a string makes
    [format_successful_classification] raise [TypeError] at the join,
    after the attribute lines were built: no reply text is returned. *)
Theorem non_string_keyword_raises
    (py_repr : json -> pystr) (attrs keywords : list json) (k : json) :
  Forall renderable attrs ->
  In k keywords ->
  is_str k = false ->
  MessageFormatter.format_successful_classification py_repr
    (JList attrs) (JList keywords) = Raise TypeError.
Proof.
  intros Ha Hin Hk. unfold MessageFormatter.format_successful_classification.
  unfold Py.iter at 1. unfold bind at 1.
  destruct (FormatterFacts.for_each_returns (MessageFormatter.success_line py_repr)
              renderable attrs
              (fun reply x => FormatterFacts.success_line_returns py_repr reply x) Ha
              (u "✅ Заявка успешно классифицирована:" ++ nl ++ nl))
    as [reply ->].
  unfold bind at 1.
  assert (Ht : Py.truthy (JList keywords) = true)
    by (destruct keywords; [contradiction | reflexivity]).
  rewrite Ht. unfold Py.join, Py.iter, bind.
  now rewrite (ErrorFacts.mapM_as_str_raises keywords k Hin Hk).
Qed.

(** X15.  A payload whose [attributes] key is present with the value
    [null] is treated differently by the two branches: with a true [valid]
    the loop over the attributes raises [TypeError], while with a false or
    absent [valid] the guard [if recognized_attrs:] skips the loop and the
    user is asked for the missing attributes as usual. *)
Theorem null_attributes
    (py_repr : json -> pystr) (response : APIResponse) (d : dict) :
  success response = true ->
  data response = JDict d ->
  no_answer d ->
  Py.lookup (u "attributes") d = Some JNull ->
  (Py.truthy (or_default (Py.lookup (u "valid") d) JNull) = true ->
     snd (process_api_response py_repr response) = Raise TypeError)
  /\ (Py.truthy (or_default (Py.lookup (u "valid") d) JNull) = false ->
      forall ms,
        or_default (Py.lookup (u "missingAttributes") d) (JList []) = strings ms ->
        snd (process_api_response py_repr response)
        = Return (JStr (missing_header ++ clarify_block ms))).
Proof.
  intros Hs Hd Ha Hnull.
  rewrite (ShapeFacts.process_by_fields py_repr response d Hs Hd).
  unfold reply_of_fields.
  rewrite (ProcessFacts.no_answer_falsy d Ha), Hnull.
  cbn [normalized_field or_default]. split.
  - intros Hv. rewrite Hv. reflexivity.
  - intros Hv ms Hms. rewrite Hv, Hms.
    unfold MessageFormatter.format_missing_info, strings.
    change (Py.truthy JNull) with false. cbv iota.
    unfold bind at 2. unfold Py.iter. unfold bind at 2.
    rewrite TextFacts.missing_lines. unfold bind, missing_header, clarify_block.
    now rewrite <- ?app_assoc.
Qed.

(** X16.  What the user reads for a payload whose [attributes] is a
    mapping.  With a true [valid]: the header, one line per entry of the
    mapping whose value is not [null], in the order of the mapping, and
    the keywords line when there are keywords.  With a false or absent
    [valid]: the header, the recognized block over the same entries, and
    the list of the missing attributes.  An entry whose value is [null]
    never shows. *)
Theorem mapping_payload_reply
    (py_repr : json -> pystr) (response : APIResponse) (d m : dict) :
  success response = true ->
  data response = JDict d ->
  no_answer d ->
  Py.lookup (u "attributes") d = Some (JDict m) ->
  (Py.truthy (or_default (Py.lookup (u "valid") d) JNull) = true ->
     forall ks,
       or_default (Py.lookup (u "keywords") d) (JList []) = strings ks ->
       snd (process_api_response py_repr response)
       = Return (JStr (success_header
                       ++ success_body py_repr (filter not_none_entry m)
                       ++ keywords_line ks)))
  /\ (Py.truthy (or_default (Py.lookup (u "valid") d) JNull) = false ->
      forall ms,
        or_default (Py.lookup (u "missingAttributes") d) (JList []) = strings ms ->
        snd (process_api_response py_repr response)
        = Return (JStr (missing_header
                        ++ recognized_block py_repr (filter not_none_entry m)
                        ++ clarify_block ms))).
Proof.
  intros Hs Hd Ha Hm.
  rewrite (ShapeFacts.process_by_fields py_repr response d Hs Hd).
  unfold reply_of_fields.
  rewrite (ProcessFacts.no_answer_falsy d Ha), Hm.
  cbn [normalized_field or_default]. split.
  - intros Hv ks Hks. rewrite Hv, Hks.
    unfold MessageFormatter.format_successful_classification.
    unfold Py.iter at 1. unfold bind at 2.
    rewrite TextFacts.success_lines. unfold bind at 2.
    destruct ks as [|k ks].
    + change (Py.truthy (strings [])) with false. cbv iota.
      unfold bind, keywords_line, success_header. now rewrite app_nil_r.
    + change (Py.truthy (strings (k :: ks))) with true. cbv iota.
      rewrite TextFacts.join_strings. unfold bind, keywords_line, success_header.
      now rewrite <- ?app_assoc.
  - intros Hv ms Hms. rewrite Hv, Hms.
    unfold MessageFormatter.format_missing_info, strings.
    destruct (filter not_none_entry m) as [|p pairs].
    + change (Py.truthy (JList (map (fun e => attribute (fst e) (snd e)) [])))
        with false.
      cbv iota. unfold bind at 2. unfold Py.iter. unfold bind at 2.
      rewrite TextFacts.missing_lines.
      unfold bind, missing_header, recognized_block, clarify_block.
      rewrite app_nil_l. now rewrite <- ?app_assoc.
    + change (Py.truthy (JList (map (fun e => attribute (fst e) (snd e)) (p :: pairs))))
        with true.
      cbv iota. unfold Py.iter at 1. unfold bind at 3.
      rewrite TextFacts.recognized_lines. unfold bind at 3. unfold bind at 2.
      unfold Py.iter. unfold bind at 2. rewrite TextFacts.missing_lines.
      unfold bind, missing_header, recognized_block, clarify_block.
      now rewrite <- ?app_assoc.
Qed.

(** ** More on the client *)

Module SessionFacts.

Lemma outgoing_prefix (config : Config) (text : pystr) :
  exists rest, text = APIClient.outgoing_text config text ++ rest.
Proof.
  unfold APIClient.outgoing_text.
  destruct (len text >? MAX_TEXT_LENGTH config).
  - apply ClientFacts.slice_to_prefix.
  - exists []. now rewrite app_nil_r.
Qed.

(** A call that ends in a failure object. *)
Lemma failed_call (config : Config) (post : APIClient.session) (text : pystr) :
  (exists e, aborted_by post (APIClient.request_of config text) e)
  \/ (exists resp body,
        post (APIClient.request_of config text) = Return resp
        /\ APIClient.text resp = Return body
        /\ APIClient.status resp <> 200) ->
  exists reason,
    APIClient.classify_message config post text = Return (failure reason).
Proof.
  intros [[e Ha] | (resp & body & Hp & Ht & Hs)].
  - rewrite (ClientFacts.aborted_call_outcome config post text e Ha).
    unfold APIClient.on_exception.
    destruct (is_timeout e); eexists; reflexivity.
  - unfold APIClient.classify_message, try_except, APIClient.exchange, bind.
    rewrite Hp, Ht. apply Z.eqb_neq in Hs. rewrite Hs. eexists. reflexivity.
Qed.

End SessionFacts.

(** X17.  What [classify_message] returns is one of two objects.  Either
    [success] is true, [error] is [None] and [data] is the JSON body (the
    empty dictionary when the body is empty or false).  Or [success] is
    false, [data] is the empty dictionary and [error] holds a reason.  The
    first is returned exactly when the status is 200 and the body was read
    and decoded: a decoded body always gives the first object, and the
    second is returned only when no body was decoded. *)
Theorem classify_message_result_shape
    (config : Config) (post : APIClient.session) (text : pystr) (r : APIResponse) :
  APIClient.classify_message config post text = Return r ->
  ((success r = true /\ error r = None
    /\ exists payload,
         decoded post (APIClient.request_of config text) payload
         /\ data r = Py.or_ payload (JDict []))
   \/ (success r = false /\ data r = JDict []
       /\ (exists reason, error r = Some reason)
       /\ forall payload,
            ~ decoded post (APIClient.request_of config text) payload))
  /\ (forall payload,
        decoded post (APIClient.request_of config text) payload ->
        r = APIResponse_init true payload None).
Proof.
  intros Hr. split.
  - revert Hr.
    unfold APIClient.classify_message, try_except, APIClient.exchange,
      APIClient.on_exception, bind, decoded.
    destruct (post (APIClient.request_of config text)) as [e|resp] eqn:Hp.
    + destruct (is_timeout e); intros H; injection H as <-; right;
        (split; [reflexivity|]); (split; [reflexivity|]);
        (split; [eexists; reflexivity|]);
        intros payload (resp & body & Hp' & _); discriminate.
    + destruct (APIClient.text resp) as [e|body] eqn:Ht.
      * destruct (is_timeout e); intros H; injection H as <-; right;
          (split; [reflexivity|]); (split; [reflexivity|]);
          (split; [eexists; reflexivity|]);
          intros payload (resp' & body & Hp' & Ht' & _);
          injection Hp' as <-; congruence.
      * destruct (APIClient.status resp =? 200) eqn:Hs.
        -- destruct (APIClient.json_body resp) as [e|payload] eqn:Hj.
           ++ destruct (is_timeout e); intros H; injection H as <-; right;
                (split; [reflexivity|]); (split; [reflexivity|]);
                (split; [eexists; reflexivity|]);
                intros payload (resp' & body' & Hp' & _ & _ & Hj');
                injection Hp' as <-; congruence.
           ++ intros H. injection H as <-. left.
              split; [reflexivity|]. split; [reflexivity|].
              exists payload. split; [|reflexivity].
              exists resp, body. apply Z.eqb_eq in Hs. auto.
        -- intros H. injection H as <-. right.
           split; [reflexivity|]. split; [reflexivity|].
           split; [eexists; reflexivity|].
           intros payload (resp' & body' & Hp' & _ & Hs' & _).
           injection Hp' as <-. apply Z.eqb_neq in Hs. contradiction.
  - intros payload (resp & body & Hp & Ht & Hs & Hj).
    rewrite (ClientFacts.decoded_call config post text resp body payload Hp Ht Hs Hj)
      in Hr.
    now injection Hr as <-.
Qed.

(** X18.  With a negative [MAX_TEXT_LENGTH] the test [len(text) >
    MAX_TEXT_LENGTH] holds for every text and the slice counts from the
    end: what goes out is the text without its last [-MAX_TEXT_LENGTH]
    characters, and nothing at all when the text is that short. *)
Theorem negative_max_text_length (config : Config) (text : pystr) :
  MAX_TEXT_LENGTH config < 0 ->
  (exists rest, text = APIClient.outgoing_text config text ++ rest)
  /\ len (APIClient.outgoing_text config text)
     = Z.max 0 (len text + MAX_TEXT_LENGTH config).
Proof.
  intros Hneg. split; [apply SessionFacts.outgoing_prefix|].
  unfold APIClient.outgoing_text.
  assert (Hgt : (len text >? MAX_TEXT_LENGTH config) = true).
  { rewrite Z.gtb_ltb. apply Z.ltb_lt. unfold len. lia. }
  rewrite Hgt. unfold slice_to.
  assert (Hle : (0 <=? MAX_TEXT_LENGTH config) = false) by (apply Z.leb_gt; lia).
  rewrite Hle. unfold len. rewrite length_firstn. unfold len. lia.
Qed.

(** X19.  With a non-negative [MAX_TEXT_LENGTH], what goes out is a prefix
    of the text of length [min(len(text), MAX_TEXT_LENGTH)], and cutting
    it again changes nothing. *)
Theorem outgoing_text_idempotent (config : Config) (text : pystr) :
  0 <= MAX_TEXT_LENGTH config ->
  (exists rest, text = APIClient.outgoing_text config text ++ rest)
  /\ len (APIClient.outgoing_text config text)
     = Z.min (len text) (MAX_TEXT_LENGTH config)
  /\ APIClient.outgoing_text config (APIClient.outgoing_text config text)
     = APIClient.outgoing_text config text.
Proof.
  intros Hmax. split; [apply SessionFacts.outgoing_prefix|].
  assert (Hlen : len (APIClient.outgoing_text config text)
                 = Z.min (len text) (MAX_TEXT_LENGTH config)).
  { unfold APIClient.outgoing_text.
    destruct (len text >? MAX_TEXT_LENGTH config) eqn:E; rewrite Z.gtb_ltb in E.
    - apply Z.ltb_lt in E. rewrite ClientFacts.slice_to_length by lia. lia.
    - apply Z.ltb_ge in E. lia. }
  split; [exact Hlen|].
  unfold APIClient.outgoing_text at 1. rewrite Hlen.
  destruct (Z.min (len text) (MAX_TEXT_LENGTH config) >? MAX_TEXT_LENGTH config) eqn:E;
    [|reflexivity].
  rewrite Z.gtb_ltb in E. apply Z.ltb_lt in E. lia.
Qed.

(** X20.  With the client of the running bot, a failure of the HTTP call
    is never retried: when the first call times out, is aborted by any
    other exception, or comes back with a status other than 200 (and
    [MAX_RETRIES] allows a first call and the platform delivers), the run
    is that one call followed by the reply
    [Произошла ошибка при обработке заявки. ...]. *)
Theorem http_failure_not_retried
    (py_repr : json -> pystr) (w : collaborators) (config : Config)
    (post : Z -> APIClient.session) (text : pystr) :
  1 <= MAX_RETRIES config ->
  ((exists e, aborted_by (post 0) (APIClient.request_of config text) e)
   \/ (exists resp body,
         post 0 (APIClient.request_of config text) = Return resp
         /\ APIClient.text resp = Return body
         /\ APIClient.status resp <> 200)) ->
  reply_to w 0 (JStr api_error_reply) = Return tt ->
  handle_message py_repr (with_session config post w) config text
  = ([Called text; Replied (JStr api_error_reply)], Return tt).
Proof.
  intros Hn Hfail Hr.
  destruct (SessionFacts.failed_call config (post 0) text Hfail) as [reason Hcall].
  apply (RunFacts.stops_at_first_delivery py_repr (with_session config post w)
           config text 0%nat (JStr api_error_reply)).
  - simpl. lia.
  - intros i Hi. simpl in Hi. lia.
  - split.
    + unfold formatted, with_session, session_client. cbn [classify Z.of_nat].
      rewrite Hcall. reflexivity.
    + exact Hr.
Qed.

(** X21.  With the client of the running bot, a status 200 whose JSON body
    is not an object (an array, a string, a number) is treated like a
    fault of the call: when every attempt gets such a body, the bot calls
    the API [MAX_RETRIES] times, pausing in between, and then sends the
    apology. *)
Theorem non_object_body_exhausts
    (py_repr : json -> pystr) (w : collaborators) (config : Config)
    (post : Z -> APIClient.session) (text : pystr) :
  1 <= MAX_RETRIES config ->
  (forall i, 0 <= i < MAX_RETRIES config ->
     exists resp body payload,
       post i (APIClient.request_of config text) = Return resp
       /\ APIClient.text resp = Return body
       /\ APIClient.status resp = 200
       /\ APIClient.json_body resp = Return payload
       /\ Py.truthy payload = true
       /\ Py.isinstance_dict payload = false) ->
  reply_apology w (MAX_RETRIES config - 1) = Return tt ->
  handle_message py_repr (with_session config post w) config text
  = (failed_attempts (Z.to_nat (MAX_RETRIES config - 1)) text (RETRY_DELAY config)
       ++ [Called text; Replied (JStr exhausted_reply)], Return tt).
Proof.
  intros Hn Hbody Ha.
  apply (RunFacts.exhausts py_repr (with_session config post w) config text Hn).
  - intros i Hi. left.
    destruct (Hbody i Hi) as (resp & body & payload & Hp & Ht & Hs & Hj & Htr & Hnd).
    unfold formatted, with_session, session_client. cbn [classify].
    unfold APIClient.classify_message, try_except, APIClient.exchange, bind.
    rewrite Hp, Ht, Hs, Hj. cbn [Z.eqb Pos.eqb].
    unfold process_api_response, APIResponse_init, Py.or_.
    rewrite Htr. cbn [success data negb].
    destruct payload; try reflexivity; discriminate.
  - exact Ha.
Qed.

(** ** The further properties at concrete inputs *)

Lemma retry_then_success_witness :
  handle_message no_repr flaky_world (config_with_retries 3) the_text
  = (failed_attempts 2 the_text (RETRY_DELAY (config_with_retries 3))
       ++ [Called the_text; Replied (JStr (u "ok"))], Return tt).
Proof.
  apply (retry_then_success no_repr flaky_world (config_with_retries 3) the_text
           2%nat (JStr (u "ok"))).
  - cbn. lia.
  - intros i Hi. left. unfold formatted, flaky_world. cbn [classify].
    assert (Hlt : (i <? 2) = true) by (apply Z.ltb_lt; cbn in Hi; lia).
    now rewrite Hlt.
  - split; vm_compute; reflexivity.
Defined.

Lemma all_attempts_fail_witness :
  handle_message no_repr failing_world (config_with_retries 3) the_text
  = (failed_attempts (Z.to_nat (MAX_RETRIES (config_with_retries 3) - 1)) the_text
       (RETRY_DELAY (config_with_retries 3))
       ++ [Called the_text; Replied (JStr exhausted_reply)], Return tt).
Proof.
  apply (all_attempts_fail no_repr failing_world (config_with_retries 3) the_text).
  - cbn. lia.
  - intros i Hi. left. reflexivity.
  - reflexivity.
Defined.

Lemma calls_and_pauses_bounded_witness :
  (MAX_RETRIES (config_with_retries 0) <= 0
   /\ fst (handle_message no_repr answering_world (config_with_retries 0) the_text) = [])
  /\ (1 <= MAX_RETRIES (config_with_retries 3)
      /\ List.length
           (calls (fst (handle_message no_repr flaky_world (config_with_retries 3)
                          the_text)))
         = S (List.length
                (sleeps (fst (handle_message no_repr flaky_world (config_with_retries 3)
                                the_text))))).
Proof.
  assert (H0 : MAX_RETRIES (config_with_retries 0) <= 0) by (cbn; lia).
  assert (H3 : 1 <= MAX_RETRIES (config_with_retries 3)) by (cbn; lia).
  split; split.
  - exact H0.
  - exact (proj1 (proj2 (calls_and_pauses_bounded no_repr answering_world
                           (config_with_retries 0) the_text)) H0).
  - exact H3.
  - exact (proj2 (proj1 (proj2 (proj2 (calls_and_pauses_bounded no_repr flaky_world
                                         (config_with_retries 3) the_text))) H3)).
Defined.

Lemma nothing_after_reply_witness :
  fst (handle_message no_repr answering_world (config_with_retries 3) the_text)
  = [Called the_text] ++ Replied (JStr (u "ok")) :: []
  /\ (@nil event) = [].
Proof.
  assert (H : fst (handle_message no_repr answering_world (config_with_retries 3)
                     the_text)
              = [Called the_text] ++ Replied (JStr (u "ok")) :: [])
    by (vm_compute; reflexivity).
  split; [exact H|].
  exact (nothing_after_reply no_repr answering_world (config_with_retries 3) the_text
           [Called the_text] [] (JStr (u "ok")) H).
Defined.

Lemma only_apology_delivery_escapes_witness :
  snd (handle_message no_repr undeliverable_world (config_with_retries 3) the_text)
  = Raise (Raised false (u "Bad Gateway"))
  /\ replies (fst (handle_message no_repr undeliverable_world (config_with_retries 3)
                     the_text)) = [].
Proof.
  assert (H : snd (handle_message no_repr undeliverable_world (config_with_retries 3)
                     the_text)
              = Raise (Raised false (u "Bad Gateway")))
    by (vm_compute; reflexivity).
  split; [exact H|].
  exact (proj1 (proj2 (proj2 (proj2
           (only_apology_delivery_escapes no_repr undeliverable_world
              (config_with_retries 3) the_text (Raised false (u "Bad Gateway")) H))))).
Defined.

Lemma non_object_payload_raises_witness :
  process_api_response no_repr
    {| success := true; data := JList [JInt 1]; error := None |}
  = ({| success := true; data := JList [JInt 1]; error := None |},
     Raise AttributeError).
Proof.
  apply (non_object_payload_raises no_repr
           {| success := true; data := JList [JInt 1]; error := None |});
    reflexivity.
Defined.

Lemma unrecognized_keys_ignored_witness :
  snd (process_api_response no_repr (successful annotated_payload))
  = snd (process_api_response no_repr (successful mapping_payload)).
Proof.
  apply (unrecognized_keys_ignored no_repr (successful annotated_payload)
           (successful mapping_payload) annotated_payload mapping_payload);
    try reflexivity.
  intros k [<- | [<- | [<- | [<- | [<- | []]]]]]; vm_compute; reflexivity.
Defined.

Lemma empty_answer_ignored_witness :
  snd (process_api_response no_repr (successful empty_answer_payload))
  = snd (process_api_response no_repr (successful mapping_payload)).
Proof.
  apply (empty_answer_ignored no_repr (successful empty_answer_payload)
           (successful mapping_payload) empty_answer_payload mapping_payload);
    try (vm_compute; reflexivity).
  - intros a Ha. vm_compute in Ha. injection Ha as <-. reflexivity.
  - intros a Ha. vm_compute in Ha. discriminate.
Defined.

Lemma empty_body_reply_witness :
  process_api_response no_repr (APIResponse_init true JNull None)
  = (APIResponse_init true JNull None,
     Return (JStr (missing_header ++ clarify_block []))).
Proof.
  exact (proj2 (empty_body_reply no_repr JNull eq_refl)).
Defined.

Lemma malformed_record_raises_witness :
  MessageFormatter.format_successful_classification no_repr
    (JList ([attribute (u "equipment_type") (JStr (u "принтер"))]
            ++ JDict [(u "value", JStr (u "ABC123"))] :: []))
    (JList [])
  = Raise (KeyError (u "name")).
Proof.
  assert (Hpre : Forall renderable [attribute (u "equipment_type") (JStr (u "принтер"))]).
  { constructor; [|constructor]. apply DefaultFacts.attribute_renderable. }
  exact (proj1 (proj1 (malformed_record_raises no_repr
                         [attribute (u "equipment_type") (JStr (u "принтер"))] []
                         [(u "value", JStr (u "ABC123"))] (JList []) (JList []) Hpre)
                  eq_refl)).
Defined.

Lemma non_string_keyword_raises_witness :
  MessageFormatter.format_successful_classification no_repr
    (JList []) (JList [JStr (u "экран"); JInt 1])
  = Raise TypeError.
Proof.
  apply (non_string_keyword_raises no_repr [] [JStr (u "экран"); JInt 1] (JInt 1)).
  - constructor.
  - right. left. reflexivity.
  - reflexivity.
Defined.

Lemma null_attributes_witness :
  snd (process_api_response no_repr (successful null_attributes_payload))
  = Raise TypeError.
Proof.
  apply (proj1 (null_attributes no_repr (successful null_attributes_payload)
                  null_attributes_payload eq_refl eq_refl
                  ltac:(intros a Ha; vm_compute in Ha; discriminate)
                  ltac:(vm_compute; reflexivity))).
  vm_compute. reflexivity.
Defined.

Lemma mapping_payload_reply_witness :
  snd (process_api_response no_repr (successful mapping_payload))
  = Return (JStr (success_header
                  ++ success_body no_repr
                       (filter not_none_entry
                          [(u "serial_number", JStr (u "ABC123"));
                           (u "equipment_type", JNull)])
                  ++ keywords_line [])).
Proof.
  apply (proj1 (mapping_payload_reply no_repr (successful mapping_payload)
                  mapping_payload
                  [(u "serial_number", JStr (u "ABC123")); (u "equipment_type", JNull)]
                  eq_refl eq_refl
                  ltac:(intros a Ha; vm_compute in Ha; discriminate)
                  ltac:(vm_compute; reflexivity))).
  - vm_compute. reflexivity.
  - vm_compute. reflexivity.
Defined.

Lemma classify_message_result_shape_witness :
  (APIClient.classify_message (config_with_max_text 4096) status_500_session the_text
   = Return (failure (u "API вернул статус 500: Internal Server Error"))
   /\ forall payload,
        ~ decoded status_500_session
            (APIClient.request_of (config_with_max_text 4096) the_text) payload)
  /\ (APIClient.classify_message (config_with_max_text 4096) array_session the_text
      = Return (APIResponse_init true (JList [JInt 1]) None)
      /\ exists payload,
           decoded array_session
             (APIClient.request_of (config_with_max_text 4096) the_text) payload).
Proof.
  assert (H500 : APIClient.classify_message (config_with_max_text 4096)
                   status_500_session the_text
                 = Return (failure (u "API вернул статус 500: Internal Server Error")))
    by (vm_compute; reflexivity).
  assert (H200 : APIClient.classify_message (config_with_max_text 4096)
                   array_session the_text
                 = Return (APIResponse_init true (JList [JInt 1]) None))
    by (vm_compute; reflexivity).
  split; split.
  - exact H500.
  - destruct (proj1 (classify_message_result_shape (config_with_max_text 4096)
                       status_500_session the_text _ H500))
      as [(Hs & _) | (_ & _ & _ & Hnone)].
    + discriminate Hs.
    + exact Hnone.
  - exact H200.
  - destruct (proj1 (classify_message_result_shape (config_with_max_text 4096)
                       array_session the_text _ H200))
      as [(_ & _ & payload & Hd & _) | (Hs & _)].
    + exists payload. exact Hd.
    + discriminate Hs.
Defined.

Lemma negative_max_text_length_witness :
  MAX_TEXT_LENGTH (config_with_max_text (-1)) < 0
  /\ len (APIClient.outgoing_text (config_with_max_text (-1)) the_text)
     = Z.max 0 (len the_text + MAX_TEXT_LENGTH (config_with_max_text (-1))).
Proof.
  assert (H : MAX_TEXT_LENGTH (config_with_max_text (-1)) < 0) by (cbn; lia).
  split; [exact H|].
  exact (proj2 (negative_max_text_length (config_with_max_text (-1)) the_text H)).
Defined.

Lemma outgoing_text_idempotent_witness :
  0 <= MAX_TEXT_LENGTH (config_with_max_text 5)
  /\ APIClient.outgoing_text (config_with_max_text 5)
       (APIClient.outgoing_text (config_with_max_text 5) the_text)
     = APIClient.outgoing_text (config_with_max_text 5) the_text.
Proof.
  assert (H : 0 <= MAX_TEXT_LENGTH (config_with_max_text 5)) by (cbn; lia).
  split; [exact H|].
  exact (proj2 (proj2 (outgoing_text_idempotent (config_with_max_text 5) the_text H))).
Defined.

Lemma http_failure_not_retried_witness :
  handle_message no_repr
    (with_session (config_with_retries 3) (fun _ => status_500_session) answering_world)
    (config_with_retries 3) the_text
  = ([Called the_text; Replied (JStr api_error_reply)], Return tt).
Proof.
  apply (http_failure_not_retried no_repr answering_world (config_with_retries 3)
           (fun _ => status_500_session) the_text).
  - cbn. lia.
  - right.
    exists {| APIClient.status := 500;
              APIClient.text := Return (u "Internal Server Error");
              APIClient.json_body := Raise (Raised false (u "not JSON")) |},
      (u "Internal Server Error").
    split; [reflexivity|]. split; [reflexivity|]. cbn. discriminate.
  - reflexivity.
Defined.

Lemma non_object_body_exhausts_witness :
  handle_message no_repr
    (with_session (config_with_retries 3) (fun _ => array_session) answering_world)
    (config_with_retries 3) the_text
  = (failed_attempts (Z.to_nat (MAX_RETRIES (config_with_retries 3) - 1)) the_text
       (RETRY_DELAY (config_with_retries 3))
       ++ [Called the_text; Replied (JStr exhausted_reply)], Return tt).
Proof.
  apply (non_object_body_exhausts no_repr answering_world (config_with_retries 3)
           (fun _ => array_session) the_text).
  - cbn. lia.
  - intros i Hi.
    exists {| APIClient.status := 200;
              APIClient.text := Return (u "[1]");
              APIClient.json_body := Return (JList [JInt 1]) |},
      (u "[1]"), (JList [JInt 1]).
    repeat split.
  - reflexivity.
Defined.
